(** * Underwater detection system: a shallow embedding of the application
    glue of [app_simple_professional.py] and of the two training scripts.

    The detection model, the drawing library and the training library are
    external; they appear as the fields of interface classes.  What the
    repository itself computes (class naming, box records, the summary, the
    bounded history, the model registry, the label map) is written out as
    executable definitions. *)

From Stdlib Require Import ZArith Ascii String DecimalString.
From Stdlib Require Import Floats.PrimFloat Floats.FloatOps Floats.SpecFloat.
From stdpp Require Import gmap strings list fin_maps.

#[local] Set Warnings "-inexact-float".

Local Open Scope string_scope.
Local Open Scope Z_scope.

(** ** Python values used by the scripts *)

Module Py.

(** Exceptions that the modelled code can raise.  [Exception msg] stands for
    an exception of an external library whose [str(e)] is [msg]. *)
Inductive exn : Type :=
| IndexError
| ValueError
| OverflowError
| ZeroDivisionError
| Exception (msg : string).

Inductive result (A : Type) : Type :=
| Ok (a : A)
| Raise (e : exn).
Arguments Ok {A} a.
Arguments Raise {A} e.

(** [str(n)] for an [int]. *)
Definition str_int (z : Z) : string := NilZero.string_of_int (Z.to_int z).

(** [float(n)] for an [int]: the nearest binary64 value. *)
Definition float_of_int (z : Z) : float :=
  SF2Prim (binary_normalize prec emax z 0 false).

(** [int(x)] for a [float]: truncation towards zero; [nan] and the
    infinities raise. *)
Definition int_of_float (x : float) : result Z :=
  match Prim2SF x with
  | S754_zero _ => Ok 0
  | S754_infinity _ => Raise OverflowError
  | S754_nan => Raise ValueError
  | S754_finite sg m e =>
      let mag := if 0 <=? e then Z.pos m * 2 ^ e else Z.pos m / 2 ^ (- e) in
      Ok (if sg then - mag else mag)
  end.

(** [a / b] on two [int]s: true division, a [float]. *)
Definition truediv_int (a b : Z) : result float :=
  if b =? 0 then Raise ZeroDivisionError
  else Ok (PrimFloat.div (float_of_int a) (float_of_int b)).

(** [x / n] for a [float] and an [int]. *)
Definition truediv (x : float) (n : Z) : result float :=
  if n =? 0 then Raise ZeroDivisionError
  else Ok (PrimFloat.div x (float_of_int n)).

(** [max(a, b)] on floats: the first argument unless the second is greater. *)
Definition max_float (a b : float) : float :=
  if PrimFloat.ltb a b then b else a.

(** [sum(xs)] over floats: left to right from the [int] 0. *)
Definition sum_float (xs : list float) : float :=
  fold_left PrimFloat.add xs (float_of_int 0).

(** Rounding of the non-negative rational [num / den] to the nearest
    integer, ties to even. *)
Definition round_half_even (num den : Z) : Z :=
  let q := num / den in
  let r := num mod den in
  match Z.compare (2 * r) den with
  | Lt => q
  | Gt => q + 1
  | Eq => if Z.even q then q else q + 1
  end.

Definition two_digits (n : Z) : string :=
  if n <? 10 then "0" +:+ str_int n else str_int n.

(** [f"{x:.2f}"]: the exact value of [x], rounded to two decimals. *)
Definition format_2f (x : float) : string :=
  match Prim2SF x with
  | S754_nan => "nan"
  | S754_infinity sg => if sg then "-inf" else "inf"
  | S754_zero sg => if sg then "-0.00" else "0.00"
  | S754_finite sg m e =>
      let hundredths :=
        if 0 <=? e then Z.pos m * 2 ^ e * 100
        else round_half_even (Z.pos m * 100) (2 ^ (- e)) in
      (if sg then "-" else EmptyString) +:+ str_int (hundredths / 100) +:+ "."
        +:+ two_digits (hundredths mod 100)
  end.

Definition upper_ascii (c : ascii) : ascii :=
  let n := nat_of_ascii c in
  if ((97 <=? n) && (n <=? 122))%nat then ascii_of_nat (n - 32) else c.

Definition lower_ascii (c : ascii) : ascii :=
  let n := nat_of_ascii c in
  if ((65 <=? n) && (n <=? 90))%nat then ascii_of_nat (n + 32) else c.

Fixpoint map_string (f : ascii -> ascii) (s : string) : string :=
  match s with
  | EmptyString => EmptyString
  | String c r => String (f c) (map_string f r)
  end.

(** [s.capitalize()] on ASCII text. *)
Definition capitalize (s : string) : string :=
  match s with
  | EmptyString => EmptyString
  | String c r => String (upper_ascii c) (map_string lower_ascii r)
  end.

Definition hex_digit (c : ascii) : option Z :=
  let n := Z.of_nat (nat_of_ascii c) in
  if (48 <=? n) && (n <=? 57) then Some (n - 48)
  else if (65 <=? n) && (n <=? 70) then Some (n - 55)
  else if (97 <=? n) && (n <=? 102) then Some (n - 87)
  else None.

Fixpoint hex_digits (acc : Z) (s : string) : option Z :=
  match s with
  | EmptyString => Some acc
  | String c r =>
      match hex_digit c with
      | Some d => hex_digits (16 * acc + d) r
      | None => None
      end
  end.

(** [int(s, 16)] on a string of hexadecimal digits (the only strings the
    application passes); the empty string and any other character raise. *)
Definition int_base16 (s : string) : result Z :=
  match s with
  | EmptyString => Raise ValueError
  | _ => match hex_digits 0 s with
         | Some z => Ok z
         | None => Raise ValueError
         end
  end.

(** [xs[i]] for a list and an [int], with Python's negative indices. *)
Definition index {A} (xs : list A) (i : Z) : result A :=
  let n := Z.of_nat (length xs) in
  let j := if i <? 0 then i + n else i in
  if (0 <=? j) && (j <? n) then
    match xs !! Z.to_nat j with
    | Some x => Ok x
    | None => Raise IndexError
    end
  else Raise IndexError.

(** [xs[-k:]] for a positive [k]: the last [k] items, or all of them. *)
Definition slice_last {A} (k : nat) (xs : list A) : list A :=
  drop (length xs - k)%nat xs.

(** [d.get(k, default)] on a dictionary. *)
Definition dict_get {V} (d : gmap string V) (k : string) (default : V) : V :=
  match d !! k with
  | Some v => v
  | None => default
  end.

(** Dictionaries whose iteration order matters are association lists in
    insertion order. [assoc_get] is [d.get(k, default)] and [assoc_set] is
    [d[k] = v]: an existing key keeps its place, a new key goes last. *)
Fixpoint assoc_get {V} (d : list (string * V)) (k : string) (default : V) : V :=
  match d with
  | [] => default
  | (k', v) :: rest => if String.eqb k' k then v else assoc_get rest k default
  end.

Fixpoint assoc_set {V} (d : list (string * V)) (k : string) (v : V)
  : list (string * V) :=
  match d with
  | [] => [(k, v)]
  | (k', v') :: rest =>
      if String.eqb k' k then (k', v) :: rest else (k', v') :: assoc_set rest k v
  end.

(** [xs.pop(0)]: the first item and the remaining list. *)
Definition pop0 {A} (xs : list A) : result (A * list A) :=
  match xs with
  | [] => Raise IndexError
  | x :: rest => Ok (x, rest)
  end.

(** [enumerate(xs)] *)
Definition enumerate {A} (xs : list A) : list (Z * A) :=
  imap (fun i x => (Z.of_nat i, x)) xs.

(** The newline character of a string literal. *)
Definition nl : string := String (ascii_of_nat 10) EmptyString.

End Py.

Import Py.

(** ** The application: [app_simple_professional.py] *)

Module App.

(** Objects that hold pixels (PIL images and numpy arrays) live in a store
    and are passed around by reference. *)
Definition loc : Type := positive.

(** One element of [results[0].boxes]: [conf] and [cls] are [None] or hold
    the value at index 0 of the tensor; [xyxy] is row 0 of the coordinates. *)
Record Box : Type := {
  conf : option float;
  cls : option float;
  xyxy : float * float * float * float
}.

(** One element of the list a model call returns. *)
Record Results : Type := { boxes : option (list Box) }.

(** The external libraries: numpy/PIL pixel buffers, the cv2 drawing calls
    and a loaded YOLO model. *)
Class Vision : Type := {
  pixels : Type;
  handle : Type;
  (** [arr.shape[:2]]: height, then width *)
  shape : pixels -> Z * Z;
  cv2_rectangle : pixels -> Z * Z -> Z * Z -> Z * Z * Z -> Z -> pixels;
  cv2_getTextSize : string -> Z -> float -> Z -> (Z * Z) * Z;
  cv2_putText :
    pixels -> string -> Z * Z -> Z -> float -> Z * Z * Z -> Z -> pixels;
  (** [model(image, conf=.., iou=..)] *)
  predict : handle -> pixels -> float -> float -> result (list Results)
}.

Definition FONT_HERSHEY_SIMPLEX : Z := 0.

Definition UNDERWATER_CLASSES : list string :=
  ["fish"; "jellyfish"; "penguin"; "puffin"; "shark"; "starfish"; "stingray"].

Definition CLASS_COLORS : gmap string string :=
  <["fish" := "#FF6B6B"]> (
  <["jellyfish" := "#4ECDC4"]> (
  <["penguin" := "#45B7D1"]> (
  <["puffin" := "#96CEB4"]> (
  <["shark" := "#FECA57"]> (
  <["starfish" := "#FF9FF3"]> (
  <["stingray" := "#54A0FF"]> ∅)))))).

(** A detection record, the dictionary appended to [detection_data]. *)
Record detection : Type := {
  class : string;
  confidence : float;
  bbox : list Z;
  color : string
}.

(** A history entry, the dictionary appended to [detection_history]. *)
Record history_entry : Type := {
  timestamp : string;
  model : string;
  detections : Z;
  inference_time : float;
  objects : list detection
}.

Section WithVision.
Context {V : Vision}.

(** One call of a loaded model, as recorded in the trace of the state. *)
Record inference_call : Type := {
  call_model : string;
  call_image : loc;
  call_conf : float;
  call_iou : float
}.

(** The process state: the object store, the module globals [models] and
    [detection_history], and the trace of inference calls made so far. *)
Record state : Type := {
  heap : gmap loc pixels;
  models : gmap string handle;
  detection_history : list history_entry;
  inference_log : list inference_call
}.

Definition set_heap (h : gmap loc pixels) (s : state) : state :=
  {| heap := h; models := models s;
     detection_history := detection_history s;
     inference_log := inference_log s |}.

Definition set_history (h : list history_entry) (s : state) : state :=
  {| heap := heap s; models := models s;
     detection_history := h;
     inference_log := inference_log s |}.

Definition set_log (l : list inference_call) (s : state) : state :=
  {| heap := heap s; models := models s;
     detection_history := detection_history s;
     inference_log := l |}.

(** Computations that read and write the state and may raise. *)
Definition M (A : Type) : Type := state -> result A * state.

Definition ret {A} (a : A) : M A := fun s => (Ok a, s).

Definition bind {A B} (m : M A) (k : A -> M B) : M B :=
  fun s =>
    match m s with
    | (Ok a, s') => k a s'
    | (Raise e, s') => (Raise e, s')
    end.

Definition lift {A} (r : result A) : M A := fun s => (r, s).

Definition get : M state := fun s => (Ok s, s).

Definition modify (f : state -> state) : M unit := fun s => (Ok tt, f s).

Notation "x <- m ;; k" := (bind m (fun x => k))
  (at level 100, m at next level, right associativity).
Notation "m ;;; k" := (bind m (fun _ => k))
  (at level 100, right associativity).

(** A loop [for x in xs] whose body updates a local accumulator. *)
Fixpoint for_each {A B} (xs : list A) (body : B -> A -> M B) (acc : B) : M B :=
  match xs with
  | [] => ret acc
  | x :: rest => acc' <- body acc x ;; for_each rest body acc'
  end.

(** *** The object store *)

(** A new object holding [px]; its reference is unused so far. *)
Definition alloc (px : pixels) : M loc :=
  fun s =>
    let l := fresh (dom (heap s)) in
    (Ok l, set_heap (<[l := px]> (heap s)) s).

(** The pixels of the object at [l].  A reference always names an object
    of the store in a running program; on any other reference the read
    raises. *)
Definition read (l : loc) : M pixels :=
  fun s =>
    match heap s !! l with
    | Some px => (Ok px, s)
    | None => (Raise (Exception "no such object"), s)
    end.

(** An in-place update of the object at [l]. *)
Definition update (l : loc) (f : pixels -> pixels) : M unit :=
  px <- read l ;; modify (fun s => set_heap (<[l := f px]> (heap s)) s).

(** [np.array(image)]: a new array with the pixels of [image]. *)
Definition np_array (image : loc) : M loc := px <- read image ;; alloc px.

(** [arr.copy()] *)
Definition np_copy (arr : loc) : M loc := px <- read arr ;; alloc px.

(** [Image.fromarray(arr)] *)
Definition Image_fromarray (arr : loc) : M loc := px <- read arr ;; alloc px.

(** *** [create_visualization] *)

(** [tuple(int(color[i:i+2], 16) for i in (1, 3, 5))] *)
Definition color_rgb_of (color : string) : result (Z * Z * Z) :=
  match int_base16 (substring 1 2 color) with
  | Raise e => Raise e
  | Ok r =>
      match int_base16 (substring 3 2 color) with
      | Raise e => Raise e
      | Ok g =>
          match int_base16 (substring 5 2 color) with
          | Raise e => Raise e
          | Ok b => Ok (r, g, b)
          end
      end
  end.

(** The class name of a class id (lines 76-79). *)
Definition class_name_of (class_id : Z) : result string :=
  if class_id <? Z.of_nat (length UNDERWATER_CLASSES)
  then index UNDERWATER_CLASSES class_id
  else Ok ("class_" +:+ str_int class_id).

(** [max(2, int(min(img_width, img_height) / 300))] *)
Definition thickness_of (img_width img_height : Z) : result Z :=
  match truediv_int (Z.min img_width img_height) 300 with
  | Raise e => Raise e
  | Ok q =>
      match int_of_float q with
      | Raise e => Raise e
      | Ok n => Ok (Z.max 2 n)
      end
  end.

(** [max(0.6, min(img_width, img_height) / 1000)] *)
Definition font_scale_of (img_width img_height : Z) : result float :=
  match truediv_int (Z.min img_width img_height) 1000 with
  | Raise e => Raise e
  | Ok q => Ok (max_float 0.6%float q)
  end.

(** The body of the loop over [detections.boxes] (lines 71-114). *)
Definition visit_box (annotated_img : loc) (img_width img_height : Z)
    (detection_data : list detection) (box : Box) : M (list detection) :=
  match conf box, cls box with
  | Some c, Some k =>
      let confidence := c in
      class_id <- lift (int_of_float k) ;;
      class_name <- lift (class_name_of class_id) ;;
      let '(fx1, fy1, fx2, fy2) := xyxy box in
      x1 <- lift (int_of_float fx1) ;;
      y1 <- lift (int_of_float fy1) ;;
      x2 <- lift (int_of_float fx2) ;;
      y2 <- lift (int_of_float fy2) ;;
      let color := dict_get CLASS_COLORS class_name "#FFFFFF" in
      color_rgb <- lift (color_rgb_of color) ;;
      thickness <- lift (thickness_of img_width img_height) ;;
      update annotated_img
        (fun px => cv2_rectangle px (x1, y1) (x2, y2) color_rgb thickness) ;;;
      let label := class_name +:+ " " +:+ format_2f confidence in
      font_scale <- lift (font_scale_of img_width img_height) ;;
      let font_thickness := Z.max 1 (thickness / 2) in
      let '((label_w, label_h), baseline) :=
        cv2_getTextSize label FONT_HERSHEY_SIMPLEX font_scale font_thickness in
      let label_bg_top := Z.max 0 (y1 - label_h - 10) in
      update annotated_img
        (fun px =>
           cv2_rectangle px (x1, label_bg_top) (x1 + label_w + 10, y1)
             color_rgb (-1)) ;;;
      update annotated_img
        (fun px =>
           cv2_putText px label (x1 + 5, y1 - 5) FONT_HERSHEY_SIMPLEX font_scale
             (255, 255, 255) font_thickness) ;;;
      ret (detection_data ++
             [ {| class := class_name; confidence := confidence;
                  bbox := [x1; y1; x2; y2]; color := color |} ])%list
  | _, _ => ret detection_data
  end.

Definition create_visualization (image : loc) (results : list Results)
    (model_name : string) (inference_time : float) : M (loc * list detection) :=
  img_array <- np_array image ;;
  arr <- read img_array ;;
  let '(img_height, img_width) := shape arr in
  annotated_img <- np_copy img_array ;;
  detections <- lift (index results 0) ;;
  detection_data <-
    match boxes detections with
    | Some bs => for_each bs (visit_box annotated_img img_width img_height) []
    | None => ret []
    end ;;
  out <- Image_fromarray annotated_img ;;
  ret (out, detection_data).

(** *** [create_detection_summary] and [create_detection_chart] *)

Definition NO_OBJECTS_MESSAGE : string :=
  "🔍 **No objects detected**" +:+ nl +:+ nl +:+
  "Try adjusting the confidence threshold or uploading a different image.".

Definition CLASS_EMOJI : gmap string string :=
  <["fish" := "🐠"]> (
  <["jellyfish" := "🪼"]> (
  <["penguin" := "🐧"]> (
  <["puffin" := "🦅"]> (
  <["shark" := "🦈"]> (
  <["starfish" := "⭐"]> (
  <["stingray" := "🐙"]> ∅)))))).

(** The loop that counts detections by class (lines 128-130, 154-156). *)
Definition count_by_class (detection_data : list detection) : list (string * Z) :=
  fold_left
    (fun class_counts d =>
       assoc_set class_counts (class d) (assoc_get class_counts (class d) 0 + 1))
    detection_data [].

Definition summary_line (summary : string) (item : string * Z) : string :=
  let '(class_name, count) := item in
  let emoji := dict_get CLASS_EMOJI class_name "🔹" in
  summary +:+ emoji +:+ " **" +:+ capitalize class_name +:+ ":** "
    +:+ str_int count +:+ nl.

Definition create_detection_summary (detection_data : list detection)
    (model_name : string) (inference_time : float) : result string :=
  match detection_data with
  | [] => Ok NO_OBJECTS_MESSAGE
  | _ :: _ =>
      let total_detections := Z.of_nat (length detection_data) in
      match truediv (sum_float (map confidence detection_data)) total_detections with
      | Raise e => Raise e
      | Ok avg_confidence =>
          let class_counts := count_by_class detection_data in
          let summary := "## 🎯 Detection Summary" +:+ nl in
          let summary := summary +:+ "**Model Used:** " +:+ model_name +:+ nl in
          let summary :=
            summary +:+ "**Inference Time:** " +:+ format_2f inference_time
              +:+ "s" +:+ nl in
          let summary :=
            summary +:+ "**Total Objects:** " +:+ str_int total_detections +:+ nl in
          let summary :=
            summary +:+ "**Average Confidence:** " +:+ format_2f avg_confidence
              +:+ nl +:+ nl in
          let summary := summary +:+ "### 📊 Detected Objects:" +:+ nl in
          Ok (fold_left summary_line class_counts summary)
      end
  end.

(** The bar chart handed to the plotting library: classes, counts and the
    colour of each bar. *)
Record figure : Type := {
  bar_x : list string;
  bar_y : list Z;
  bar_marker_color : list string
}.

Definition create_detection_chart (detection_data : list detection)
  : option figure :=
  match detection_data with
  | [] => None
  | _ :: _ =>
      let class_counts := count_by_class detection_data in
      let classes := map fst class_counts in
      let counts := map snd class_counts in
      let colors := map (fun c => dict_get CLASS_COLORS c "#888888") classes in
      Some {| bar_x := classes; bar_y := counts; bar_marker_color := colors |}
  end.

(** *** [detect_objects] *)

(** What one call reads from the clock: [time.time()] before and after the
    model call, and [datetime.now().strftime(..)]. *)
Record clock : Type := {
  time_before : float;
  time_after : float;
  now : string
}.

(** The two shapes of tuple the function returns: four items on the early
    exits, three after an inference. *)
Inductive detect_return : Type :=
| Return4 (image : option loc) (message : string) (chart : option figure)
    (status : string)
| Return3 (annotated_image : loc) (summary : string) (status : string).

(** [model(image, conf=.., iou=..)], recorded in the trace. *)
Definition run_model (model_choice : string) (model : handle) (image : loc)
    (confidence_threshold iou_threshold : float) : M (list Results) :=
  px <- read image ;;
  modify (fun s =>
    set_log (inference_log s ++
               [ {| call_model := model_choice; call_image := image;
                    call_conf := confidence_threshold;
                    call_iou := iou_threshold |} ])%list s) ;;;
  lift (predict model px confidence_threshold iou_threshold).

(** Lines 205-216: the append to the history and the cap at 50. *)
Definition record_history (entry : history_entry) : M unit :=
  modify (fun s => set_history (detection_history s ++ [entry])%list s) ;;;
  s <- get ;;
  if 50 <? Z.of_nat (length (detection_history s)) then
    popped <- lift (pop0 (detection_history s)) ;;
    modify (set_history (snd popped))
  else ret tt.

Definition detect_objects (clk : clock) (image : option loc)
    (model_choice : string) (confidence_threshold iou_threshold : float)
  : M detect_return :=
  match image with
  | None => ret (Return4 None "Please upload an image" None EmptyString)
  | Some image =>
      s <- get ;;
      match models s !! model_choice with
      | None =>
          ret (Return4 None ("Model " +:+ model_choice +:+ " not available")
                 None EmptyString)
      | Some model =>
          let start_time := time_before clk in
          results <- run_model model_choice model image
                       confidence_threshold iou_threshold ;;
          let inference_time := PrimFloat.sub (time_after clk) start_time in
          r <- create_visualization image results model_choice inference_time ;;
          let '(annotated_image, detection_data) := r in
          summary <- lift (create_detection_summary detection_data model_choice
                             inference_time) ;;
          let chart := create_detection_chart detection_data in
          record_history
            {| timestamp := now clk;
               model := model_choice;
               detections := Z.of_nat (length detection_data);
               inference_time := inference_time;
               objects := detection_data |} ;;;
          ret (Return3 annotated_image summary
                 ("Detection completed in " +:+ format_2f inference_time +:+ "s"))
      end
  end.

(** *** [get_detection_history] *)

Definition history_line (history_text : string) (item : Z * history_entry)
  : string :=
  let '(i, record) := item in
  let history_text :=
    history_text +:+ "**" +:+ str_int (i + 1) +:+ ".** " +:+ timestamp record
      +:+ " | " in
  let history_text := history_text +:+ "Model: " +:+ model record +:+ " | " in
  let history_text :=
    history_text +:+ "Objects: " +:+ str_int (detections record) +:+ " | " in
  history_text +:+ "Time: " +:+ format_2f (inference_time record) +:+ "s" +:+ nl.

Definition HISTORY_HEADER : string := "## 📈 Detection History" +:+ nl +:+ nl.

Definition get_detection_history : M string :=
  s <- get ;;
  match detection_history s with
  | [] => ret "No detection history available."
  | _ :: _ =>
      let history_text := HISTORY_HEADER in
      ret (fold_left history_line
             (enumerate (reverse (slice_last 10 (detection_history s))))
             history_text)
  end.

(** *** The callback as the user interface drives it *)

(** One click on the submit button: the arguments of the call and what the
    call reads from the clock. *)
Record request : Type := {
  req_clock : clock;
  req_image : option loc;
  req_model : string;
  req_conf : float;
  req_iou : float
}.

Definition serve (r : request) : M detect_return :=
  detect_objects (req_clock r) (req_image r) (req_model r) (req_conf r)
    (req_iou r).

(** A sequence of clicks, one after the other on the same process state; a
    call that raises leaves the state it reached and the next call goes on
    from there. *)
Fixpoint serve_all (rs : list request) (s : state)
  : list (result detect_return) * state :=
  match rs with
  | [] => ([], s)
  | r :: rest =>
      let (o, s1) := serve r s in
      let (os, s2) := serve_all rest s1 in
      (o :: os, s2)
  end.

(** The calls that went through the inference path to the end. *)
Definition completed (o : result detect_return) : bool :=
  match o with
  | Ok (Return3 _ _ _) => true
  | _ => false
  end.

End WithVision.

(** *** The model registry (lines 13-39), run once when the module loads *)

(** The file system and the weight loader: [os.path.exists] and the [YOLO]
    constructor, which returns a handle or raises ([inr] holds [str(e)]). *)
Class Weights {V : Vision} : Type := {
  os_path_exists : string -> bool;
  YOLO : string -> handle + string
}.

Definition MODEL_PATHS : list (string * string) :=
  [ ("YOLOv8n", "../yolov8n/runs/detect_train/weights/best.pt");
    ("YOLOv8s", "../yolov8s/runs/detect_train/weights/best.pt") ].

Section Startup.
Context {V : Vision} {W : Weights}.

(** The globals [models] and [available_models], and what was printed. *)
Record registry : Type := {
  reg_models : gmap string handle;
  available_models : list string;
  printed : list string
}.

Definition print (line : string) (r : registry) : registry :=
  {| reg_models := reg_models r;
     available_models := available_models r;
     printed := (printed r ++ [line])%list |}.

(** The body of the loop over [MODEL_PATHS.items()] (lines 24-32). *)
Definition load_one (r : registry) (item : string * string) : registry :=
  let '(model_name, model_path) := item in
  if os_path_exists model_path then
    match YOLO model_path with
    | inl m =>
        print ("✅ Loaded " +:+ model_name +:+ " model: " +:+ model_path)
          {| reg_models := <[model_name := m]> (reg_models r);
             available_models := (available_models r ++ [model_name])%list;
             printed := printed r |}
    | inr e =>
        print ("❌ Failed to load " +:+ model_name +:+ " model: " +:+ e) r
    end
  else print ("⚠️ " +:+ model_name +:+ " model not found: " +:+ model_path) r.

Definition load_custom : registry :=
  fold_left load_one MODEL_PATHS
    {| reg_models := ∅; available_models := []; printed := [] |}.

(** Lines 34-39: the fallback to the generic weights. *)
Definition load_default (r : registry) : result registry :=
  match YOLO "yolov8n.pt" with
  | inr e => Raise (Exception e)
  | inl n =>
      match YOLO "yolov8s.pt" with
      | inr e => Raise (Exception e)
      | inl s =>
          Ok (print "⚠️ Using default YOLO models"
                {| reg_models :=
                     <["YOLOv8s" := s]> (<["YOLOv8n" := n]> (reg_models r));
                   available_models := ["YOLOv8n"; "YOLOv8s"];
                   printed := printed r |})
      end
  end.

Definition startup : result registry :=
  let r := load_custom in
  match available_models r with
  | [] => load_default r
  | _ :: _ => Ok r
  end.

(** The state in which the user interface starts serving calls. *)
Definition initial_state (r : registry) : state :=
  {| heap := ∅; models := reg_models r;
     detection_history := []; inference_log := [] |}.

End Startup.

End App.

(** ** A concrete instance of the external libraries

    Pixels are a shape and the list of drawing commands applied so far; a
    model handle is the answer it gives to every call. *)

Module Canvas.
Import App.

Inductive draw_op : Type :=
| Rect (p1 p2 : Z * Z) (rgb : Z * Z * Z) (thickness : Z)
| Text (label : string) (org : Z * Z) (rgb : Z * Z * Z) (thickness : Z).

Record canvas : Type := {
  canvas_shape : Z * Z;
  canvas_ops : list draw_op
}.

Definition draw (op : draw_op) (c : canvas) : canvas :=
  {| canvas_shape := canvas_shape c; canvas_ops := (canvas_ops c ++ [op])%list |}.

#[global] Instance vision : Vision := {|
  pixels := canvas;
  handle := result (list Results);
  shape := canvas_shape;
  cv2_rectangle c p1 p2 rgb t := draw (Rect p1 p2 rgb t) c;
  cv2_getTextSize label _ _ _ := ((10 * Z.of_nat (String.length label), 20), 5);
  cv2_putText c label org _ _ rgb t := draw (Text label org rgb t) c;
  predict h _ _ _ := h
|}.

Definition blank (height width : Z) : canvas :=
  {| canvas_shape := (height, width); canvas_ops := [] |}.

Definition box (c k : float) (x1 y1 x2 y2 : float) : Box :=
  {| conf := Some c; cls := Some k; xyxy := (x1, y1, x2, y2) |}.

Definition answer (bs : list Box) : result (list Results) :=
  Ok [ {| boxes := Some bs |} ].

(** A state with one uploaded image at reference 1 and one model. *)
Definition demo_state (bs : list Box) : state :=
  {| heap := {[ 1%positive := blank 600 900 ]};
     models := {[ "YOLOv8n" := answer bs ]};
     detection_history := [];
     inference_log := [] |}.

Definition demo_clock : clock :=
  {| time_before := 100; time_after := 100.5; now := "2025-01-01 12:00:00" |}.

End Canvas.


(** ** The training scripts: [train_and_test_yolov8.py] and
    [train_test_yolov8s.py] *)

Module Train.

(** Keyword arguments of the library calls. *)
Inductive pyval : Type :=
| PInt (n : Z)
| PFloat (x : float)
| PStr (s : string)
| PBool (b : bool).

Definition kwargs : Type := list (string * pyval).

(** The values of the dictionary written as the label map. *)
Inductive yaml_value : Type :=
| YStr (s : string)
| YInt (n : Z)
| YList (items : list string).

Definition yaml_doc : Type := list (string * yaml_value).

(** The training library, [torch], [os.path], the clock and [yaml].
    A call that raises returns [Raise]. *)
Class Trainer : Type := {
  yolo : Type;
  metrics : Type;
  cuda_is_available : bool;
  cuda_get_device_name : Z -> string;
  YOLO : string -> result yolo;
  (** [model.train(..)]: the model object after training *)
  model_train : yolo -> kwargs -> result yolo;
  (** [model.val(..)]: the metrics object it returns *)
  model_val : yolo -> kwargs -> result metrics;
  model_predict : yolo -> kwargs -> result unit;
  (** [val_results.box.map50]; [inr] holds [str(e)] of what it raised *)
  box_map50 : metrics -> float + string;
  (** [os.path.dirname(__file__)] *)
  script_dir : string;
  path_join : string -> string -> string;
  abspath : string -> string;
  (** [datetime.now().strftime('%Y%m%d')] *)
  today : string;
  yaml_dump : yaml_doc -> string;
  (** whether [open(path, 'w')] succeeds *)
  open_for_writing : string -> result unit
}.

Section WithTrainer.
Context {T : Trainer}.

(** What a script leaves behind: the files it wrote itself and its output. *)
Record world : Type := {
  files : gmap string string;
  stdout : list string
}.

Definition M (A : Type) : Type := world -> result A * world.

Definition ret {A} (a : A) : M A := fun w => (Ok a, w).

Definition bind {A B} (m : M A) (k : A -> M B) : M B :=
  fun w =>
    match m w with
    | (Ok a, w') => k a w'
    | (Raise e, w') => (Raise e, w')
    end.

Definition lift {A} (r : result A) : M A := fun w => (r, w).

Notation "x <- m ;; k" := (bind m (fun x => k))
  (at level 100, m at next level, right associativity).
Notation "m ;;; k" := (bind m (fun _ => k))
  (at level 100, right associativity).

Definition print (line : string) : M unit :=
  fun w => (Ok tt, {| files := files w; stdout := (stdout w ++ [line])%list |}).

(** [with open(path, 'w') as f: f.write(text)] *)
Definition write_file (path text : string) : M unit :=
  lift (open_for_writing path) ;;;
  fun w => (Ok tt, {| files := <[path := text]> (files w); stdout := stdout w |}).

Definition str_bool (b : bool) : string := if b then "True" else "False".

(** The [try]/[except] around the read of [box.map50]. *)
Definition report_map50 (results : metrics) (heading failure : string) : M unit :=
  match box_map50 results with
  | inl map50 =>
      print (heading +:+ format_2f (PrimFloat.mul map50 (float_of_int 100))
               +:+ " out of 100")
  | inr e => print (failure +:+ " " +:+ e)
  end.

Definition CLASS_NAMES : list string :=
  ["fish"; "jellyfish"; "penguin"; "puffin"; "shark"; "starfish"; "stingray"].

(** The dictionary [test_yaml] of both scripts. *)
Definition test_yaml : yaml_doc :=
  [ ("path", YStr (abspath (path_join script_dir "test")));
    ("train", YStr EmptyString);
    ("val", YStr "images");
    ("nc", YInt 7);
    ("names", YList CLASS_NAMES) ].

(** [doc[key]] on the dictionary, [None] for a missing key. *)
Fixpoint doc_lookup (doc : yaml_doc) (key : string) : option yaml_value :=
  match doc with
  | [] => None
  | (k, v) :: rest => if String.eqb k key then Some v else doc_lookup rest key
  end.

Definition test_yaml_path : string :=
  abspath (path_join script_dir "test_data.yaml").

(** Steps 2 to 4, which the two scripts share word for word. *)
Definition validate_predict_test (model : yolo) (DATA_YAML : string)
    (IMG_SIZE DEVICE : Z) : M unit :=
  val_results <- lift (model_val model
    [ ("data", PStr DATA_YAML); ("imgsz", PInt IMG_SIZE);
      ("project", PStr "runs"); ("name", PStr "detect_val");
      ("exist_ok", PBool true); ("device", PInt DEVICE) ]) ;;
  report_map50 val_results "Validation mAP50: "
    "Could not extract mAP50 from validation results." ;;;
  let test_images_dir := abspath (path_join script_dir "test/images") in
  let timestamp := today in
  let predicted_images_dir :=
    abspath (path_join script_dir ("predicted_images_" +:+ timestamp)) in
  lift (model_predict model
    [ ("source", PStr test_images_dir); ("save", PBool true);
      ("project", PStr predicted_images_dir); ("name", PStr EmptyString);
      ("exist_ok", PBool true); ("device", PInt DEVICE) ]) ;;;
  print "Training, validation, and prediction complete!" ;;;
  print ("Predictions saved to: " +:+ predicted_images_dir) ;;;
  write_file test_yaml_path (yaml_dump test_yaml) ;;;
  test_val_results <- lift (model_val model
    [ ("data", PStr test_yaml_path); ("imgsz", PInt IMG_SIZE);
      ("project", PStr "runs"); ("name", PStr "detect_test_val");
      ("exist_ok", PBool true); ("device", PInt DEVICE) ]) ;;
  report_map50 test_val_results "Test set mAP50: "
    "Could not extract mAP50 from test set validation results.".

(** [main] of [train_and_test_yolov8.py]. *)
Definition train_arguments_augmented (DATA_YAML : string)
    (EPOCHS IMG_SIZE DEVICE : Z) : kwargs :=
  [ ("data", PStr DATA_YAML); ("epochs", PInt EPOCHS); ("imgsz", PInt IMG_SIZE);
    ("project", PStr "runs"); ("name", PStr "detect_train");
    ("exist_ok", PBool true); ("device", PInt DEVICE); ("patience", PInt 10);
    ("degrees", PInt 10); ("scale", PFloat 0.5); ("shear", PInt 2);
    ("perspective", PFloat 0.001); ("flipud", PFloat 0.5);
    ("fliplr", PFloat 0.5); ("hsv_h", PFloat 0.015); ("hsv_s", PFloat 0.7);
    ("hsv_v", PFloat 0.4); ("mosaic", PFloat 1.0); ("mixup", PFloat 0.2) ].

Definition main_train_and_test_yolov8 : M unit :=
  print ("CUDA available: " +:+ str_bool cuda_is_available) ;;;
  (if cuda_is_available
   then print ("Using GPU: " +:+ cuda_get_device_name 0)
   else print "Using CPU") ;;;
  let DATA_YAML := "data.yaml" in
  let MODEL := "yolov8s.pt" in
  let EPOCHS := 100 in
  let IMG_SIZE := 640 in
  let DEVICE := 0 in
  model <- lift (YOLO MODEL) ;;
  model <- lift (model_train model
                   (train_arguments_augmented DATA_YAML EPOCHS IMG_SIZE DEVICE)) ;;
  validate_predict_test model DATA_YAML IMG_SIZE DEVICE.

(** [main] of [train_test_yolov8s.py]. *)
Definition main_train_test_yolov8s : M unit :=
  let DATA_YAML := "data.yaml" in
  let MODEL := "yolov8s.pt" in
  let EPOCHS := 100 in
  let IMG_SIZE := 640 in
  let BATCH_SIZE := 16 in
  let DEVICE := 0 in
  model <- lift (YOLO MODEL) ;;
  model <- lift (model_train model
    [ ("data", PStr DATA_YAML); ("epochs", PInt EPOCHS); ("imgsz", PInt IMG_SIZE);
      ("batch", PInt BATCH_SIZE); ("project", PStr "runs");
      ("name", PStr "detect_train"); ("exist_ok", PBool true);
      ("device", PInt DEVICE) ]) ;;
  validate_predict_test model DATA_YAML IMG_SIZE DEVICE.

End WithTrainer.

End Train.

(** ** The Python operations on concrete values *)

Example str_int_examples :
  (str_int 0, str_int 7, str_int 120, str_int (-3)) = ("0", "7", "120", "-3").
Proof. reflexivity. Qed.

Example format_2f_examples :
  (format_2f 0.125%float, format_2f 0.375%float, format_2f 0.87%float,
   format_2f 12.005%float, format_2f (-0.001)%float, format_2f 3%float)
  = ("0.12", "0.38", "0.87", "12.01", "-0.00", "3.00").
Proof. vm_compute. reflexivity. Qed.

Example int_of_float_examples :
  (int_of_float 3.99%float, int_of_float (-3.99)%float, int_of_float 0%float,
   int_of_float infinity, int_of_float nan)
  = (Ok 3, Ok (-3), Ok 0, Raise OverflowError, Raise ValueError).
Proof. vm_compute. reflexivity. Qed.

Example index_examples :
  (index [10; 20; 30] 0, index [10; 20; 30] (-1), index [10; 20; 30] 3,
   index [10; 20; 30] (-4))
  = (Ok 10, Ok 30, Raise IndexError, Raise IndexError).
Proof. reflexivity. Qed.

Example capitalize_examples :
  (capitalize "fish", capitalize "class_7", capitalize "aBC")
  = ("Fish", "Class_7", "Abc").
Proof. reflexivity. Qed.

(** ** Properties of the application *)

Import App.

Section AppProperties.
Context {V : Vision}.

(** *** Running the state monad *)

Lemma bind_lift {A B} (r : result A) (k : A -> M B) (s : state) :
  bind (lift r) k s = match r with Ok a => k a s | Raise e => (Raise e, s) end.
Proof. unfold bind, lift. destruct r; reflexivity. Qed.

Lemma bind_ok {A B} (m : M A) (k : A -> M B) s a s' :
  m s = (Ok a, s') -> bind m k s = k a s'.
Proof. intros H. unfold bind. rewrite H. reflexivity. Qed.

Lemma bind_raise {A B} (m : M A) (k : A -> M B) s e s' :
  m s = (Raise e, s') -> bind m k s = (Raise e, s').
Proof. intros H. unfold bind. rewrite H. reflexivity. Qed.

(** A computation keeps a component [proj] of the state when running it
    never changes that component, whether it returns or raises. *)
Definition keeps {A B} (proj : state -> B) (m : M A) : Prop :=
  forall s, proj (snd (m s)) = proj s.

(** Components that do not look at the object store. *)
Definition heap_blind {B} (proj : state -> B) : Prop :=
  forall h s, proj (set_heap h s) = proj s.

Lemma keeps_ret {A B} (proj : state -> B) (a : A) : keeps proj (ret a).
Proof. intros s. reflexivity. Qed.

Lemma keeps_lift {A B} (proj : state -> B) (r : result A) : keeps proj (lift r).
Proof. intros s. reflexivity. Qed.

Lemma keeps_bind {A C B} (proj : state -> B) (m : M A) (k : A -> M C) :
  keeps proj m -> (forall a, keeps proj (k a)) -> keeps proj (bind m k).
Proof.
  intros Hm Hk s. unfold bind. specialize (Hm s).
  destruct (m s) as [[a|e] s1]; simpl in *.
  - rewrite Hk. exact Hm.
  - exact Hm.
Qed.

Lemma keeps_for_each {A C B} (proj : state -> B) (body : C -> A -> M C) xs :
  (forall acc x, keeps proj (body acc x)) ->
  forall acc, keeps proj (for_each xs body acc).
Proof.
  intros Hbody. induction xs as [|x xs IH]; intros acc; simpl.
  - apply keeps_ret.
  - apply keeps_bind; [apply Hbody | exact IH].
Qed.

Lemma keeps_read {B} (proj : state -> B) l : keeps proj (read l).
Proof. intros s. unfold read. destruct (heap s !! l); reflexivity. Qed.

Lemma keeps_alloc {B} (proj : state -> B) px :
  heap_blind proj -> keeps proj (alloc px).
Proof. intros Hb s. unfold alloc. simpl. apply Hb. Qed.

Lemma keeps_copy {B} (proj : state -> B) l :
  heap_blind proj -> keeps proj (bind (read l) alloc).
Proof.
  intros Hb. apply keeps_bind; [apply keeps_read | intros px; by apply keeps_alloc].
Qed.

Lemma keeps_update {B} (proj : state -> B) l f :
  heap_blind proj -> keeps proj (update l f).
Proof.
  intros Hb. unfold update. apply keeps_bind; [apply keeps_read |].
  intros px s. unfold modify. simpl. apply Hb.
Qed.

Lemma keeps_visit_box {B} (proj : state -> B) ann w h acc box :
  heap_blind proj -> keeps proj (visit_box ann w h acc box).
Proof.
  intros Hb. unfold visit_box.
  destruct (conf box), (cls box); try apply keeps_ret.
  apply keeps_bind; [apply keeps_lift | intros class_id].
  apply keeps_bind; [apply keeps_lift | intros class_name].
  destruct (xyxy box) as [[[fx1 fy1] fx2] fy2].
  repeat (apply keeps_bind; [apply keeps_lift | intros ?]).
  apply keeps_bind; [by apply keeps_update | intros _].
  apply keeps_bind; [apply keeps_lift | intros font_scale].
  destruct (cv2_getTextSize _ _ _ _) as [[label_w label_h] baseline].
  repeat (apply keeps_bind; [by apply keeps_update | intros _]).
  apply keeps_ret.
Qed.

Lemma keeps_create_visualization {B} (proj : state -> B) image results name t :
  heap_blind proj -> keeps proj (create_visualization image results name t).
Proof.
  intros Hb. unfold create_visualization, np_array, np_copy, Image_fromarray.
  apply keeps_bind; [by apply keeps_copy | intros img_array].
  apply keeps_bind; [apply keeps_read | intros arr].
  destruct (shape arr) as [img_height img_width].
  apply keeps_bind; [by apply keeps_copy | intros annotated].
  apply keeps_bind; [apply keeps_lift | intros detections].
  apply keeps_bind.
  - destruct (boxes detections); [| apply keeps_ret].
    apply keeps_for_each. intros acc x. by apply keeps_visit_box.
  - intros data. apply keeps_bind; [by apply keeps_copy | intros ?; apply keeps_ret].
Qed.

Lemma history_heap_blind : heap_blind detection_history.
Proof. intros h s. reflexivity. Qed.

(** *** The object store *)

Lemma fresh_unused (s : state) : heap s !! fresh (dom (heap s)) = None.
Proof. apply not_elem_of_dom. apply is_fresh. Qed.

Lemma copy_some (l : loc) px s :
  heap s !! l = Some px ->
  bind (read l) alloc s
  = (Ok (fresh (dom (heap s))),
     set_heap (<[fresh (dom (heap s)) := px]> (heap s)) s).
Proof. intros H. unfold bind, read. rewrite H. reflexivity. Qed.

Lemma copy_none (l : loc) s :
  heap s !! l = None ->
  bind (read l) alloc s = (Raise (Exception "no such object"), s).
Proof. intros H. unfold bind, read. rewrite H. reflexivity. Qed.

Lemma update_some (l : loc) f px s :
  heap s !! l = Some px ->
  update l f s = (Ok tt, set_heap (<[l := f px]> (heap s)) s).
Proof. intros H. unfold update, bind, read, modify. rewrite H. reflexivity. Qed.

(** *** The records and the drawing of [create_visualization] *)

(** [d] is the record the loop body appends for [box]. *)
Definition produced (box : Box) (d : detection) : Prop :=
  exists k class_id x1 y1 x2 y2,
    conf box = Some (confidence d) /\
    cls box = Some k /\
    int_of_float k = Ok class_id /\
    class_name_of class_id = Ok (class d) /\
    int_of_float (xyxy box).1.1.1 = Ok x1 /\
    int_of_float (xyxy box).1.1.2 = Ok y1 /\
    int_of_float (xyxy box).1.2 = Ok x2 /\
    int_of_float (xyxy box).2 = Ok y2 /\
    bbox d = [x1; y1; x2; y2] /\
    color d = dict_get CLASS_COLORS (class d) "#FFFFFF".

(** The three drawing calls for one box (lines 91, 103 and 106), composed
    into one function on the pixels of the annotated array. *)
Definition draw_detection (thickness : Z) (font_scale : float)
    (color_rgb : Z * Z * Z) (class_name : string) (confidence : float)
    (x1 y1 x2 y2 : Z) (px : pixels) : pixels :=
  let px1 := cv2_rectangle px (x1, y1) (x2, y2) color_rgb thickness in
  let label := class_name +:+ " " +:+ format_2f confidence in
  let font_thickness := Z.max 1 (thickness / 2) in
  let '((label_w, label_h), baseline) :=
    cv2_getTextSize label FONT_HERSHEY_SIMPLEX font_scale font_thickness in
  let label_bg_top := Z.max 0 (y1 - label_h - 10) in
  let px2 :=
    cv2_rectangle px1 (x1, label_bg_top) (x1 + label_w + 10, y1) color_rgb (-1) in
  cv2_putText px2 label (x1 + 5, y1 - 5) FONT_HERSHEY_SIMPLEX font_scale
    (255, 255, 255) font_thickness.

(** The colour a box is drawn in, from the class name alone. *)
Definition class_color_rgb (class_name : string) : result (Z * Z * Z) :=
  color_rgb_of (dict_get CLASS_COLORS class_name "#FFFFFF").

(** What the loop body draws for the record [d] on an image of the given
    size. *)
Definition draw_record (img_width img_height : Z) (px : pixels) (d : detection)
  : pixels :=
  match thickness_of img_width img_height, font_scale_of img_width img_height,
        class_color_rgb (class d), bbox d with
  | Ok thickness, Ok font_scale, Ok color_rgb, [x1; y1; x2; y2] =>
      draw_detection thickness font_scale color_rgb (class d) (confidence d)
        x1 y1 x2 y2 px
  | _, _, _, _ => px
  end.

Lemma font_scale_of_total w h : exists font_scale, font_scale_of w h = Ok font_scale.
Proof.
  unfold font_scale_of, truediv_int. change (1000 =? 0) with false.
  by eexists.
Qed.

Lemma visit_box_spec ann w h acc box s cur :
  heap s !! ann = Some cur ->
  visit_box ann w h acc box s = (Ok acc, s)
  \/ (exists e, visit_box ann w h acc box s = (Raise e, s))
  \/ (exists d,
        visit_box ann w h acc box s
        = (Ok (acc ++ [d])%list,
           set_heap (<[ann := draw_record w h cur d]> (heap s)) s)
        /\ produced box d).
Proof.
  intros Hann. unfold visit_box.
  destruct (conf box) as [c|] eqn:Hc; [| left; reflexivity].
  destruct (cls box) as [k|] eqn:Hk; [| left; reflexivity].
  rewrite bind_lift.
  destruct (int_of_float k) as [class_id|e] eqn:Hid; [| right; left; eauto].
  rewrite bind_lift.
  destruct (class_name_of class_id) as [class_name|e] eqn:Hname;
    [| right; left; eauto].
  destruct (xyxy box) as [[[fx1 fy1] fx2] fy2] eqn:Hxy.
  rewrite bind_lift.
  destruct (int_of_float fx1) as [x1|e] eqn:Hx1; [| right; left; eauto].
  rewrite bind_lift.
  destruct (int_of_float fy1) as [y1|e] eqn:Hy1; [| right; left; eauto].
  rewrite bind_lift.
  destruct (int_of_float fx2) as [x2|e] eqn:Hx2; [| right; left; eauto].
  rewrite bind_lift.
  destruct (int_of_float fy2) as [y2|e] eqn:Hy2; [| right; left; eauto].
  rewrite bind_lift.
  destruct (color_rgb_of (dict_get CLASS_COLORS class_name "#FFFFFF"))
    as [rgb|e] eqn:Hrgb; [| right; left; eauto].
  rewrite bind_lift.
  destruct (thickness_of w h) as [t|e] eqn:Ht; [| right; left; eauto].
  destruct (font_scale_of_total w h) as [fs Hfs].
  right; right.
  exists {| class := class_name; confidence := c; bbox := [x1; y1; x2; y2];
            color := dict_get CLASS_COLORS class_name "#FFFFFF" |}.
  split.
  - erewrite bind_ok; [| apply update_some; exact Hann].
    rewrite bind_lift, Hfs.
    unfold draw_record, draw_detection, class_color_rgb.
    cbn [class confidence bbox]. rewrite Ht, Hfs, Hrgb.
    destruct (cv2_getTextSize _ _ _ _) as [[label_w label_h] baseline].
    erewrite bind_ok; [| apply update_some; apply lookup_insert_eq].
    erewrite bind_ok; [| apply update_some; apply lookup_insert_eq].
    unfold ret, set_heap. cbn [heap models detection_history inference_log].
    rewrite !insert_insert_eq. reflexivity.
  - exists k, class_id, x1, y1, x2, y2. simpl. rewrite Hxy. simpl.
    repeat split; try assumption; reflexivity.
Qed.

(** The loop over the boxes: it only writes the annotated array, whose
    pixels end as the drawings of the new records in order; each new record
    comes from one of the boxes. *)
Lemma visit_loop_spec ann w h bs :
  forall acc s cur,
    heap s !! ann = Some cur ->
    let out := for_each bs (visit_box ann w h) acc s in
    (forall l, l <> ann -> heap (snd out) !! l = heap s !! l) /\
    is_Some (heap (snd out) !! ann) /\
    forall data, fst out = Ok data ->
      exists new,
        data = (acc ++ new)%list /\
        Forall (fun d => exists box, box ∈ bs /\ produced box d) new /\
        heap (snd out) !! ann = Some (fold_left (draw_record w h) new cur).
Proof.
  induction bs as [|box bs IH]; intros acc s cur Hann; simpl.
  - split; [done |]. split; [by eexists |].
    intros data [= <-]. exists []. rewrite app_nil_r. by repeat split.
  - destruct (visit_box_spec ann w h acc box s cur Hann)
      as [Hskip | [[e Hraise] | [d [Hdraw Hprod]]]].
    + rewrite (bind_ok _ _ _ _ _ Hskip).
      destruct (IH acc s cur Hann) as (Hframe & Hsome & Hdata).
      split; [exact Hframe |]. split; [exact Hsome |].
      intros data Hok. destruct (Hdata data Hok) as (new & -> & Hall & Hpx).
      exists new. split; [done |]. split; [| done].
      eapply Forall_impl; [exact Hall |].
      intros d' (b & Hb & Hp). exists b. split; [by right | done].
    + rewrite (bind_raise _ _ _ _ _ Hraise). simpl.
      split; [done |]. split; [by eexists |]. intros data [=].
    + rewrite (bind_ok _ _ _ _ _ Hdraw).
      set (s1 := set_heap (<[ann := draw_record w h cur d]> (heap s)) s).
      assert (Hann1 : heap s1 !! ann = Some (draw_record w h cur d))
        by apply lookup_insert_eq.
      destruct (IH (acc ++ [d])%list s1 _ Hann1) as (Hframe & Hsome & Hdata).
      split; [| split; [exact Hsome |]].
      * intros l Hl. rewrite (Hframe l Hl). simpl. by apply lookup_insert_ne.
      * intros data Hok. destruct (Hdata data Hok) as (new & -> & Hall & Hpx).
        exists (d :: new). split; [by rewrite <- app_assoc |]. split; [| done].
        constructor.
        -- exists box. split; [by left | done].
        -- eapply Forall_impl; [exact Hall |].
           intros d' (b & Hb & Hp). exists b. split; [by right | done].
Qed.

Lemma read_some (l : loc) px s : heap s !! l = Some px -> read l s = (Ok px, s).
Proof. intros H. unfold read. rewrite H. reflexivity. Qed.

Lemma insert_unused_keeps (h : gmap loc pixels) l px l' px' :
  h !! l' = None -> h !! l = Some px -> <[l' := px']> h !! l = Some px.
Proof.
  intros Hnone Hsome. rewrite lookup_insert_ne; [done |]. congruence.
Qed.

(** [create_visualization] leaves every object of the store as it was, and
    when it returns, the image it returns is a new object whose pixels are
    the input's with the records drawn in order. *)
Lemma create_visualization_spec image results name t s :
  let out := create_visualization image results name t s in
  (forall l px, heap s !! l = Some px -> heap (snd out) !! l = Some px) /\
  forall annotated data, fst out = Ok (annotated, data) ->
    exists px detections,
      heap s !! image = Some px /\
      index results 0 = Ok detections /\
      heap s !! annotated = None /\
      heap (snd out) !! annotated
      = Some (fold_left (draw_record (shape px).2 (shape px).1) data px) /\
      Forall (fun d => exists bs box,
                boxes detections = Some bs /\ box ∈ bs /\ produced box d) data.
Proof.
  unfold create_visualization, np_array, np_copy, Image_fromarray.
  destruct (heap s !! image) as [px|] eqn:Himg.
  2:{ rewrite (bind_raise _ _ _ _ _ (copy_none _ _ Himg)). simpl.
      split; [done | intros ? ? [=]]. }
  rewrite (bind_ok _ _ _ _ _ (copy_some _ _ _ Himg)).
  pose proof (fresh_unused s) as Hl1.
  set (l1 := fresh (dom (heap s))) in *.
  set (s1 := set_heap (<[l1 := px]> (heap s)) s).
  assert (H1 : heap s1 !! l1 = Some px) by apply lookup_insert_eq.
  assert (F1 : forall l q, heap s !! l = Some q -> heap s1 !! l = Some q).
  { intros l q Hq. by apply insert_unused_keeps. }
  rewrite (bind_ok _ _ _ _ _ (read_some _ _ _ H1)).
  destruct (shape px) as [img_height img_width] eqn:Hshape.
  rewrite (bind_ok _ _ _ _ _ (copy_some _ _ _ H1)).
  pose proof (fresh_unused s1) as Hl2.
  set (l2 := fresh (dom (heap s1))) in *.
  set (s2 := set_heap (<[l2 := px]> (heap s1)) s1).
  assert (H2 : heap s2 !! l2 = Some px) by apply lookup_insert_eq.
  assert (F2 : forall l q, heap s !! l = Some q -> heap s2 !! l = Some q).
  { intros l q Hq. apply insert_unused_keeps; [done | by apply F1]. }
  assert (N2 : forall l q, heap s !! l = Some q -> l <> l2).
  { intros l q Hq ->. apply F1 in Hq. congruence. }
  rewrite bind_lift.
  destruct (index results 0) as [detections|e] eqn:Hdet.
  2:{ simpl. split; [exact F2 | intros ? ? [=]]. }
  assert (Hloop : exists r s3,
    (match boxes detections with
     | Some bs => for_each bs (visit_box l2 img_width img_height) []
     | None => ret []
     end) s2 = (r, s3) /\
    (forall l, l <> l2 -> heap s3 !! l = heap s2 !! l) /\
    is_Some (heap s3 !! l2) /\
    forall data, r = Ok data ->
      Forall (fun d => exists bs box,
                boxes detections = Some bs /\ box ∈ bs /\ produced box d) data /\
      heap s3 !! l2 = Some (fold_left (draw_record img_width img_height) data px)).
  { destruct (boxes detections) as [bs|] eqn:Hbs.
    - destruct (visit_loop_spec l2 img_width img_height bs [] s2 px H2)
        as (Hframe & Hsome & Hdata).
      destruct (for_each bs (visit_box l2 img_width img_height) [] s2)
        as [r s3] eqn:Hrun.
      exists r, s3. split; [done |]. split; [exact Hframe |].
      split; [exact Hsome |].
      intros data ->. destruct (Hdata data eq_refl) as (new & -> & Hall & Hpx).
      simpl. split; [| exact Hpx].
      eapply Forall_impl; [exact Hall |].
      intros d (box & Hin & Hp). by exists bs, box.
    - exists (Ok []), s2. split; [done |]. split; [done |].
      split; [by eexists |]. intros data [= <-]. by split. }
  destruct Hloop as (r & s3 & Hrun & Hframe & [cur Hcur] & Hdata).
  assert (F3 : forall l q, heap s !! l = Some q -> heap s3 !! l = Some q).
  { intros l q Hq. rewrite Hframe; [by apply F2 | by eapply N2]. }
  destruct r as [data|e].
  2:{ rewrite (bind_raise _ _ _ _ _ Hrun). simpl.
      split; [exact F3 | intros ? ? [=]]. }
  rewrite (bind_ok _ _ _ _ _ Hrun).
  rewrite (bind_ok _ _ _ _ _ (copy_some _ _ _ Hcur)).
  pose proof (fresh_unused s3) as Hl3.
  set (l3 := fresh (dom (heap s3))) in *.
  unfold ret. simpl. split.
  - intros l q Hq. apply insert_unused_keeps; [done | by apply F3].
  - intros annotated data' [= <- <-].
    destruct (Hdata data eq_refl) as (Hall & Hpx).
    exists px, detections. rewrite Hshape. simpl.
    split; [done |]. split; [done |]. split.
    + destruct (heap s !! l3) as [q|] eqn:Hq; [| done].
      apply F3 in Hq. congruence.
    + split; [| exact Hall].
      rewrite lookup_insert_eq. congruence.
Qed.

(** *** Class names and colours *)

Lemma index_elem_of {A} (xs : list A) i x : index xs i = Ok x -> x ∈ xs.
Proof.
  unfold index. intros H.
  destruct ((0 <=? _) && _); [| discriminate].
  destruct (xs !! _) as [y|] eqn:Hy; [| discriminate].
  injection H as <-. by eapply list_elem_of_lookup_2.
Qed.

Lemma class_name_of_cases class_id name :
  class_name_of class_id = Ok name ->
  (class_id < 7 /\ name ∈ UNDERWATER_CLASSES)
  \/ (7 <= class_id /\ name = "class_" +:+ str_int class_id).
Proof.
  unfold class_name_of. change (Z.of_nat (length UNDERWATER_CLASSES)) with 7.
  destruct (class_id <? 7) eqn:Hlt; intros H.
  - left. split; [lia | by eapply index_elem_of].
  - right. split; [lia | congruence].
Qed.

Lemma class_colors_values name c :
  CLASS_COLORS !! name = Some c ->
  c ∈ ["#FF6B6B"; "#4ECDC4"; "#45B7D1"; "#96CEB4"; "#FECA57"; "#FF9FF3";
       "#54A0FF"].
Proof.
  unfold CLASS_COLORS. intros H.
  repeat (apply lookup_insert_Some in H as [[_ <-] | [_ H]];
          [set_solver |]).
  by rewrite lookup_empty in H.
Qed.

(** Every class name has a colour: the table's, or white. *)
Lemma class_color_rgb_total name : exists rgb, class_color_rgb name = Ok rgb.
Proof.
  unfold class_color_rgb, dict_get.
  destruct (CLASS_COLORS !! name) as [c|] eqn:Hc; [| by eexists].
  apply class_colors_values in Hc.
  repeat (apply elem_of_cons in Hc as [-> | Hc]; [by eexists |]).
  by apply elem_of_nil in Hc.
Qed.

Definition in_unit_interval (x : float) : bool :=
  PrimFloat.leb 0 x && PrimFloat.leb x 1.

(** *** The detection records *)

(** C3, as the code has it: every record that [create_visualization]
    returns comes from a box of [results[0].boxes] with a confidence and a
    class.  Its class name is one of the seven labels when the class id is
    below 7 and ["class_<id>"] when the id is 7 or more; its confidence is
    the one the model reported for the box, so it lies in the interval from
    0 to 1 whenever the model's does; its bounding box is a list of four
    integers; its colour is the entry of [CLASS_COLORS] for the class name,
    or ["#FFFFFF"] when the name has none. *)
Theorem detection_record_fields image results name t s annotated data d :
  fst (create_visualization image results name t s) = Ok (annotated, data) ->
  d ∈ data ->
  exists detections bs box k class_id,
    index results 0 = Ok detections /\
    boxes detections = Some bs /\ box ∈ bs /\
    cls box = Some k /\ int_of_float k = Ok class_id /\
    ((class_id < 7 /\ class d ∈ UNDERWATER_CLASSES)
     \/ (7 <= class_id /\ class d = "class_" +:+ str_int class_id)) /\
    conf box = Some (confidence d) /\
    ((forall c, conf box = Some c -> in_unit_interval c = true) ->
     in_unit_interval (confidence d) = true) /\
    length (bbox d) = 4%nat /\
    color d = dict_get CLASS_COLORS (class d) "#FFFFFF".
Proof.
  intros Hrun Hd.
  destruct (create_visualization_spec image results name t s) as [_ Hspec].
  destruct (Hspec annotated data Hrun) as (px & detections & _ & Hdet & _ & _ & Hall).
  rewrite Forall_forall in Hall.
  destruct (Hall d Hd) as (bs & box & Hbs & Hin & Hprod).
  destruct Hprod as (k & class_id & x1 & y1 & x2 & y2 & Hconf & Hcls & Hid
                     & Hname & _ & _ & _ & _ & Hbbox & Hcolor).
  exists detections, bs, box, k, class_id.
  repeat (split; [assumption |]).
  split; [by apply class_name_of_cases |].
  split; [assumption |].
  split; [intros Hunit; by apply Hunit |].
  split; [by rewrite Hbbox | assumption].
Qed.

(** *** The annotated image *)

(** C6: [create_visualization] leaves the caller's image as it was, whether
    it returns or raises.  What it returns is another object, whose pixels
    are the input's with one drawing per record, in order; the colour of
    each drawing is [class_color_rgb] of the record's class name, which is
    defined for every name. *)
Theorem create_visualization_draws_on_copy image results name t s px :
  heap s !! image = Some px ->
  let out := create_visualization image results name t s in
  heap (snd out) !! image = Some px /\
  (forall annotated data, fst out = Ok (annotated, data) ->
     annotated <> image /\
     heap (snd out) !! annotated
     = Some (fold_left (draw_record (shape px).2 (shape px).1) data px)) /\
  (forall w h cur d, exists color_rgb,
     class_color_rgb (class d) = Ok color_rgb /\
     forall thickness font_scale x1 y1 x2 y2,
       thickness_of w h = Ok thickness ->
       font_scale_of w h = Ok font_scale ->
       bbox d = [x1; y1; x2; y2] ->
       draw_record w h cur d
       = draw_detection thickness font_scale color_rgb (class d) (confidence d)
           x1 y1 x2 y2 cur).
Proof.
  intros Himg out.
  destruct (create_visualization_spec image results name t s) as [Hframe Hspec].
  split; [by apply Hframe |]. split.
  - intros annotated data Hrun.
    destruct (Hspec annotated data Hrun) as (px' & detections & Himg' & _ & Hnew & Hpx & _).
    assert (px' = px) as -> by congruence.
    split; [| exact Hpx]. intros ->. congruence.
  - intros w h cur d. destruct (class_color_rgb_total (class d)) as [rgb Hrgb].
    exists rgb. split; [exact Hrgb |].
    intros thickness font_scale x1 y1 x2 y2 Ht Hfs Hbbox.
    unfold draw_record. rewrite Ht, Hfs, Hrgb, Hbbox. reflexivity.
Qed.

End AppProperties.

(** The records of a run on a frame of 600 by 900 with two boxes, one of
    class 2 and one of class 7. *)
Definition example_results : list Results :=
  [ {| boxes := Some [ Canvas.box 0.875 2 10.5 20.5 110.9 220.1;
                       Canvas.box 0.5 7 1 2 3 4 ] |} ].

Definition penguin_record : detection :=
  {| class := "penguin"; confidence := 0.875; bbox := [10; 20; 110; 220];
     color := "#45B7D1" |}.

Definition unlisted_record : detection :=
  {| class := "class_7"; confidence := 0.5; bbox := [1; 2; 3; 4];
     color := "#FFFFFF" |}.

Example create_visualization_example :
  fst (create_visualization 1%positive example_results "YOLOv8n" 0.5
         (Canvas.demo_state []))
  = Ok (4%positive, [penguin_record; unlisted_record]).
Proof. vm_compute. reflexivity. Qed.

(** C3 as the specification words it fails on a box of class 7: the record
    is named ["class_7"], which is none of the seven labels. *)
Lemma class_name_outside_labels :
  fst (create_visualization 1%positive example_results "YOLOv8n" 0.5
         (Canvas.demo_state []))
  = Ok (4%positive, [penguin_record; unlisted_record])
  /\ unlisted_record ∈ [penguin_record; unlisted_record]
  /\ class unlisted_record ∉ UNDERWATER_CLASSES.
Proof.
  split; [vm_compute; reflexivity |]. split; [right; left |].
  intros H. simpl in H.
  repeat (apply elem_of_cons in H as [H | H]; [discriminate H |]).
  by apply elem_of_nil in H.
Qed.

Lemma detection_record_fields_witness :
  length (bbox unlisted_record) = 4%nat
  /\ color unlisted_record = dict_get CLASS_COLORS (class unlisted_record) "#FFFFFF".
Proof.
  destruct (detection_record_fields (V := Canvas.vision) 1%positive
              example_results "YOLOv8n" 0.5%float (Canvas.demo_state [])
              4%positive [penguin_record; unlisted_record] unlisted_record)
    as (? & ? & ? & ? & ? & _ & _ & _ & _ & _ & _ & _ & _ & Hlen & Hcol).
  - vm_compute. reflexivity.
  - right. left.
  - split; [exact Hlen | exact Hcol].
Defined.

Lemma create_visualization_draws_on_copy_witness :
  heap (snd (create_visualization 1%positive example_results "YOLOv8n" 0.5
               (Canvas.demo_state []))) !! 1%positive
  = Some (Canvas.blank 600 900).
Proof.
  apply (create_visualization_draws_on_copy (V := Canvas.vision) 1%positive
           example_results "YOLOv8n" 0.5%float (Canvas.demo_state [])
           (Canvas.blank 600 900)).
  vm_compute. reflexivity.
Defined.

(** ** Properties of the callback and of the history *)

Section CallbackProperties.
Context {V : Vision}.

(** *** The summary *)

Lemma truediv_nonzero x n :
  n <> 0 -> truediv x n = Ok (PrimFloat.div x (float_of_int n)).
Proof. intros Hn. unfold truediv. by rewrite (proj2 (Z.eqb_neq n 0) Hn). Qed.

Lemma create_detection_summary_total data name t :
  exists text, create_detection_summary data name t = Ok text.
Proof.
  destruct data as [|d rest]; [by eexists |].
  unfold create_detection_summary.
  rewrite truediv_nonzero; [by eexists |]. simpl length. lia.
Qed.

(** C9: the summary never raises.  The empty list returns the fixed message
    although a division by its length would raise; a list with at least one
    record has a length other than 0, and the division returns. *)
Theorem create_detection_summary_never_divides_by_zero
    (data : list detection) name t :
  (exists text, create_detection_summary data name t = Ok text) /\
  create_detection_summary [] name t = Ok NO_OBJECTS_MESSAGE /\
  truediv (sum_float (map confidence [])) (Z.of_nat (length (@nil detection)))
  = Raise ZeroDivisionError /\
  (data <> [] ->
   Z.of_nat (length data) <> 0 /\
   truediv (sum_float (map confidence data)) (Z.of_nat (length data))
   = Ok (PrimFloat.div (sum_float (map confidence data))
           (float_of_int (Z.of_nat (length data))))).
Proof.
  split; [apply create_detection_summary_total |].
  split; [reflexivity |]. split; [reflexivity |].
  intros Hne.
  assert (Hlen : Z.of_nat (length data) <> 0).
  { destruct data; [done | simpl length; lia]. }
  split; [exact Hlen | by apply truediv_nonzero].
Qed.

(** *** What a call does to the history *)

(** The history after an append: one entry dropped at the front when the
    length has passed 50. *)
Definition capped (h : list history_entry) : list history_entry :=
  if 50 <? Z.of_nat (length h) then drop 1 h else h.

Lemma record_history_eq entry s :
  record_history entry s
  = (Ok tt, set_history (capped (detection_history s ++ [entry])) s).
Proof.
  unfold record_history, capped, bind, modify, get, lift, ret. simpl.
  destruct (50 <? _) eqn:Hlen; [| reflexivity].
  destruct (detection_history s ++ [entry])%list as [|first rest] eqn:Happ.
  - simpl in Hlen. discriminate.
  - reflexivity.
Qed.

Lemma keeps_modify {B} (proj : state -> B) (f : state -> state) :
  (forall s, proj (f s) = proj s) -> keeps proj (modify f).
Proof. intros Hf s. apply Hf. Qed.

Lemma keeps_run_model_history choice m image c i :
  keeps detection_history (run_model choice m image c i).
Proof.
  unfold run_model.
  apply keeps_bind; [apply keeps_read | intros px].
  apply keeps_bind; [by apply keeps_modify | intros ?; apply keeps_lift].
Qed.

Lemma keeps_eq {A B} (proj : state -> B) (m : M A) s r s' :
  keeps proj m -> m s = (r, s') -> proj s' = proj s.
Proof. intros Hk Hm. specialize (Hk s). by rewrite Hm in Hk. Qed.

(** The entry that a call appends. *)
Definition entry_of (clk : clock) (model_choice : string)
    (detection_data : list detection) : history_entry :=
  {| timestamp := now clk;
     model := model_choice;
     detections := Z.of_nat (length detection_data);
     inference_time := PrimFloat.sub (time_after clk) (time_before clk);
     objects := detection_data |}.

(** The whole of a call that gets through the model and the drawing. *)
Lemma detect_objects_success clk image choice c i s m results s1 annotated
    data s2 :
  models s !! choice = Some m ->
  run_model choice m image c i s = (Ok results, s1) ->
  create_visualization image results choice
    (PrimFloat.sub (time_after clk) (time_before clk)) s1
  = (Ok (annotated, data), s2) ->
  exists summary,
    create_detection_summary data choice
      (PrimFloat.sub (time_after clk) (time_before clk)) = Ok summary /\
    detect_objects clk (Some image) choice c i s
    = (Ok (Return3 annotated summary
             ("Detection completed in "
                +:+ format_2f (PrimFloat.sub (time_after clk) (time_before clk))
                +:+ "s")),
       set_history
         (capped (detection_history s ++ [entry_of clk choice data])) s2).
Proof.
  intros Hm Hrun Hvis.
  destruct (create_detection_summary_total data choice
              (PrimFloat.sub (time_after clk) (time_before clk)))
    as [summary Hsum].
  exists summary. split; [exact Hsum |].
  assert (Hhist : detection_history s2 = detection_history s).
  { erewrite (keeps_eq detection_history _ s1 _ s2);
      [| by apply keeps_create_visualization, history_heap_blind | exact Hvis].
    eapply keeps_eq; [apply keeps_run_model_history | exact Hrun]. }
  unfold detect_objects.
  unfold bind at 1. unfold get at 1. rewrite Hm.
  rewrite (bind_ok _ _ _ _ _ Hrun).
  rewrite (bind_ok _ _ _ _ _ Hvis).
  rewrite bind_lift, Hsum.
  unfold bind. rewrite record_history_eq. unfold ret.
  rewrite Hhist. reflexivity.
Qed.

Lemma detect_objects_history clk image choice c i s :
  if completed (fst (detect_objects clk image choice c i s))
  then exists e,
    detection_history (snd (detect_objects clk image choice c i s))
    = capped (detection_history s ++ [e])
  else detection_history (snd (detect_objects clk image choice c i s))
       = detection_history s.
Proof.
  destruct image as [image|]; [| reflexivity].
  destruct (detect_objects clk (Some image) choice c i s) as [o s'] eqn:Hdo.
  simpl.
  destruct (models s !! choice) as [m|] eqn:Hm.
  2:{ unfold detect_objects, bind, get in Hdo. rewrite Hm in Hdo.
      injection Hdo as <- <-. reflexivity. }
  destruct (run_model choice m image c i s) as [[results|e] s1] eqn:Hrun.
  2:{ unfold detect_objects in Hdo. unfold bind at 1 in Hdo.
      unfold get at 1 in Hdo. rewrite Hm in Hdo.
      rewrite (bind_raise _ _ _ _ _ Hrun) in Hdo. injection Hdo as <- <-.
      simpl. eapply keeps_eq; [apply keeps_run_model_history | exact Hrun]. }
  destruct (create_visualization image results choice
              (PrimFloat.sub (time_after clk) (time_before clk)) s1)
    as [[[annotated data]|e] s2] eqn:Hvis.
  - destruct (detect_objects_success clk image choice c i s m results s1
                annotated data s2 Hm Hrun Hvis) as (summary & _ & Heq).
    rewrite Heq in Hdo. injection Hdo as <- <-. simpl. by eexists.
  - unfold detect_objects in Hdo. unfold bind at 1 in Hdo.
    unfold get at 1 in Hdo. rewrite Hm in Hdo.
    rewrite (bind_ok _ _ _ _ _ Hrun), (bind_raise _ _ _ _ _ Hvis) in Hdo.
    injection Hdo as <- <-. simpl.
    erewrite (keeps_eq detection_history _ s1 _ s2);
      [| by apply keeps_create_visualization, history_heap_blind | exact Hvis].
    eapply keeps_eq; [apply keeps_run_model_history | exact Hrun].
Qed.

(** *** The last items of a list *)

Lemma slice_last_length {A} k (l : list A) :
  length (slice_last k l) = Nat.min k (length l).
Proof. unfold slice_last. rewrite length_drop. lia. Qed.

Lemma slice_last_short {A} k (l : list A) :
  (length l <= k)%nat -> slice_last k l = l.
Proof.
  intros H. unfold slice_last.
  replace (length l - k)%nat with 0%nat by lia. reflexivity.
Qed.

Lemma slice_last_app_slice {A} k (a b : list A) :
  slice_last k (slice_last k a ++ b) = slice_last k (a ++ b).
Proof.
  destruct (decide (length a <= k)%nat) as [Hle | Hgt].
  - by rewrite (slice_last_short k a).
  - unfold slice_last. rewrite !length_app, length_drop.
    replace (length a - (length a - k) + length b - k)%nat
      with (length b) by lia.
    replace (length a + length b - k)%nat
      with ((length a - k) + length b)%nat by lia.
    rewrite <- drop_drop. rewrite (drop_app_le a b); [done | lia].
Qed.

Lemma capped_slice_last (h : list history_entry) e :
  (length h <= 50)%nat -> capped (h ++ [e]) = slice_last 50 (h ++ [e]).
Proof.
  intros Hlen. unfold capped, slice_last. rewrite length_app. simpl length.
  destruct (50 <? _) eqn:Hcmp.
  - apply Z.ltb_lt in Hcmp.
    replace (length h + 1 - 50)%nat with 1%nat by lia. reflexivity.
  - apply Z.ltb_ge in Hcmp.
    replace (length h + 1 - 50)%nat with 0%nat by lia. reflexivity.
Qed.

(** The number of calls of a run that went through to the end. *)
Definition count_completed (os : list (result detect_return)) : nat :=
  length (List.filter completed os).

(** C1: the history never holds more than 50 entries.  A call with an
    image and a registered model whose model call and drawing return goes
    through the inference path to the end, and such a call appends its entry
    at the end and drops the entry at the front when the length has passed
    50; any other call, an early exit or one that raises, leaves the history
    as it was.  So after any sequence of calls the history is the last 50 of
    what it held before followed by the appended entries, one per call that
    went through, in order. *)
Theorem history_is_bounded_fifo :
  (forall r s image m results s1 annotated data s2,
     req_image r = Some image ->
     models s !! req_model r = Some m ->
     run_model (req_model r) m image (req_conf r) (req_iou r) s
     = (Ok results, s1) ->
     create_visualization image results (req_model r)
       (PrimFloat.sub (time_after (req_clock r)) (time_before (req_clock r))) s1
     = (Ok (annotated, data), s2) ->
     let h := detection_history s in
     let e := entry_of (req_clock r) (req_model r) data in
     completed (fst (serve r s)) = true /\
     detection_history (snd (serve r s))
     = if 50 <? Z.of_nat (length (h ++ [e]))
       then drop 1 (h ++ [e]) else (h ++ [e])%list) /\
  (forall r s,
     let h := detection_history s in
     (completed (fst (serve r s)) = true ->
      exists e,
        detection_history (snd (serve r s))
        = if 50 <? Z.of_nat (length (h ++ [e]))
          then drop 1 (h ++ [e]) else (h ++ [e])%list) /\
     (completed (fst (serve r s)) = false ->
      detection_history (snd (serve r s)) = h)) /\
  (forall rs s,
     (length (detection_history s) <= 50)%nat ->
     (length (detection_history (snd (serve_all rs s))) <= 50)%nat /\
     exists entries,
       length entries = count_completed (fst (serve_all rs s)) /\
       detection_history (snd (serve_all rs s))
       = slice_last 50 (detection_history s ++ entries)).
Proof.
  assert (Hstep : forall r s,
    if completed (fst (serve r s))
    then exists e, detection_history (snd (serve r s))
                   = capped (detection_history s ++ [e])
    else detection_history (snd (serve r s)) = detection_history s).
  { intros r s. apply detect_objects_history. }
  split; [| split].
  - intros r s image m results s1 annotated data s2 Himage Hm Hrun Hvis h e.
    unfold serve. rewrite Himage.
    destruct (detect_objects_success (req_clock r) image (req_model r)
                (req_conf r) (req_iou r) s m results s1 annotated data s2
                Hm Hrun Hvis) as (summary & _ & ->).
    split; reflexivity.
  - intros r s h. specialize (Hstep r s).
    split; intros Hc; rewrite Hc in Hstep; exact Hstep.
  - assert (Hseq : forall rs s,
      (length (detection_history s) <= 50)%nat ->
      exists entries,
        length entries = count_completed (fst (serve_all rs s)) /\
        detection_history (snd (serve_all rs s))
        = slice_last 50 (detection_history s ++ entries)).
    { induction rs as [|r rs IH]; intros s Hlen.
      - exists []. split; [reflexivity |].
        rewrite app_nil_r. simpl. by rewrite slice_last_short.
      - simpl. specialize (Hstep r s).
        destruct (serve r s) as [o s1] eqn:Hserve. simpl in Hstep.
        assert (Hlen1 : (length (detection_history s1) <= 50)%nat).
        { destruct (completed o).
          - destruct Hstep as [e ->]. rewrite capped_slice_last by done.
            rewrite slice_last_length. lia.
          - by rewrite Hstep. }
        destruct (IH s1 Hlen1) as (entries & Hcount & Hhist).
        destruct (serve_all rs s1) as [os s2] eqn:Hrest. simpl in *.
        unfold count_completed in *. simpl.
        destruct (completed o).
        + destruct Hstep as [e He]. exists (e :: entries).
          split; [simpl; by rewrite Hcount |].
          rewrite Hhist, He, capped_slice_last by done.
          rewrite slice_last_app_slice, <- app_assoc. reflexivity.
        + exists entries. split; [done |]. by rewrite Hhist, Hstep. }
    intros rs s Hlen. destruct (Hseq rs s Hlen) as (entries & Hcount & Hhist).
    split; [| by exists entries].
    rewrite Hhist, slice_last_length. lia.
Qed.

(** C2: a call whose model call and drawing return appends one entry, the
    last of the history afterwards: the time stamp read from the clock, the
    name of the model, the number of detection records, the latency, and the
    records themselves.  Below 50 entries nothing else changes; from 50 on
    the oldest entry goes. *)
Theorem successful_inference_appends_entry clk image choice c i s m results
    s1 annotated data s2 :
  models s !! choice = Some m ->
  run_model choice m image c i s = (Ok results, s1) ->
  create_visualization image results choice
    (PrimFloat.sub (time_after clk) (time_before clk)) s1
  = (Ok (annotated, data), s2) ->
  let out := detect_objects clk (Some image) choice c i s in
  let h := detection_history s in
  let entry :=
    {| timestamp := now clk;
       model := choice;
       detections := Z.of_nat (length data);
       inference_time := PrimFloat.sub (time_after clk) (time_before clk);
       objects := data |} in
  completed (fst out) = true /\
  last (detection_history (snd out)) = Some entry /\
  ((length h < 50)%nat -> detection_history (snd out) = (h ++ [entry])%list) /\
  ((50 <= length h)%nat ->
   detection_history (snd out) = (drop 1 h ++ [entry])%list).
Proof.
  intros Hm Hrun Hvis out h entry.
  destruct (detect_objects_success clk image choice c i s m results s1
              annotated data s2 Hm Hrun Hvis) as (summary & _ & Heq).
  subst out. rewrite Heq. simpl. fold h. change (entry_of clk choice data) with entry.
  split; [reflexivity |].
  unfold capped. rewrite length_app. simpl length.
  destruct (50 <? _) eqn:Hcmp.
  - apply Z.ltb_lt in Hcmp.
    assert (Hdrop : drop 1 (h ++ [entry]) = (drop 1 h ++ [entry])%list).
    { rewrite drop_app_le; [done | lia]. }
    rewrite Hdrop. split; [by rewrite last_snoc |]. split; [lia | done].
  - apply Z.ltb_ge in Hcmp.
    split; [by rewrite last_snoc |]. split; [done | lia].
Qed.

(** C8: without an image, or with a model name that is not in [models], the
    call returns no image and a message, and the state it returns is the
    state it was given: the history and the trace of inference calls are
    untouched. *)
Theorem early_return_changes_nothing clk image choice c i s :
  detect_objects clk None choice c i s
  = (Ok (Return4 None "Please upload an image" None EmptyString), s) /\
  (models s !! choice = None ->
   detect_objects clk (Some image) choice c i s
   = (Ok (Return4 None ("Model " +:+ choice +:+ " not available") None EmptyString), s)
   /\ detection_history (snd (detect_objects clk (Some image) choice c i s))
      = detection_history s
   /\ inference_log (snd (detect_objects clk (Some image) choice c i s))
      = inference_log s).
Proof.
  split; [reflexivity |].
  intros Hm. unfold detect_objects, bind, get. rewrite Hm. by repeat split.
Qed.

(** *** The history report *)

Lemma append_assoc (a b c : string) : (a +:+ b) +:+ c = a +:+ (b +:+ c).
Proof.
  induction a as [|ch a IH]; [reflexivity |].
  change (String ch ((a +:+ b) +:+ c) = String ch (a +:+ (b +:+ c))).
  by rewrite IH.
Qed.

Lemma append_empty_r (a : string) : a +:+ EmptyString = a.
Proof.
  induction a as [|ch a IH]; [reflexivity |].
  change (String ch (a +:+ EmptyString) = String ch a). by rewrite IH.
Qed.

(** The line of the entry [e] when it is numbered [k]. *)
Definition history_entry_text (k : Z) (e : history_entry) : string :=
  "**" +:+ str_int k +:+ ".** " +:+ timestamp e +:+ " | "
    +:+ "Model: " +:+ model e +:+ " | "
    +:+ "Objects: " +:+ str_int (detections e) +:+ " | "
    +:+ "Time: " +:+ format_2f (inference_time e) +:+ "s" +:+ nl.

(** The ten most recent entries at most, the most recent first. *)
Definition most_recent_first (h : list history_entry) : list history_entry :=
  take 10 (reverse h).

(** The report, as the claim describes it: the header, then one line per
    entry of [most_recent_first], numbered from 1. *)
Definition history_report (h : list history_entry) : string :=
  HISTORY_HEADER
    +:+ foldr String.append EmptyString
          (imap (fun i e => history_entry_text (Z.of_nat i + 1) e)
             (most_recent_first h)).

Lemma history_line_text text i e :
  history_line text (i, e) = text +:+ history_entry_text (i + 1) e.
Proof.
  unfold history_line, history_entry_text. cbv beta iota zeta.
  repeat rewrite append_assoc. reflexivity.
Qed.

Lemma fold_history_lines (l : list history_entry) :
  forall (number : nat -> Z) text,
    fold_left history_line (imap (fun i e => (number i, e)) l) text
    = text +:+ foldr String.append EmptyString
                 (imap (fun i e => history_entry_text (number i + 1) e) l).
Proof.
  induction l as [|e l IH]; intros number text.
  - simpl. by rewrite append_empty_r.
  - rewrite !imap_cons. cbn [fold_left foldr]. rewrite history_line_text.
    rewrite (IH (number ∘ S)). rewrite append_assoc. reflexivity.
Qed.

(** C10: with an empty history the fixed message is returned; otherwise the
    report lists the ten most recent entries at most, the most recent
    first, numbered from 1.  The state is returned as it was given. *)
Theorem get_detection_history_recent_first s :
  let h := detection_history s in
  snd (get_detection_history s) = s /\
  (h = [] ->
   fst (get_detection_history s) = Ok "No detection history available.") /\
  (h <> [] -> fst (get_detection_history s) = Ok (history_report h)) /\
  length (most_recent_first h) = Nat.min 10 (length h) /\
  (forall k, (k < Nat.min 10 (length h))%nat ->
     most_recent_first h !! k = h !! (length h - 1 - k)%nat).
Proof.
  intros h. subst h. unfold get_detection_history, bind, get, ret.
  destruct (detection_history s) as [|e0 rest] eqn:Hh.
  - simpl. repeat split; try done; intros k Hk; simpl in Hk; lia.
  - rewrite <- Hh. split; [reflexivity |]. split; [by rewrite Hh |].
    split.
    + intros _. simpl fst. f_equal. unfold enumerate.
      rewrite fold_history_lines. unfold history_report, most_recent_first.
      unfold slice_last. by rewrite take_reverse.
    + unfold most_recent_first. split.
      * by rewrite length_take, length_reverse.
      * intros k Hk. rewrite lookup_take_lt by lia.
        rewrite reverse_lookup by lia. f_equal. lia.
Qed.

End CallbackProperties.

(** *** The callback on concrete runs *)

Definition example_boxes : list Box :=
  [ Canvas.box 0.875 2 10.5 20.5 110.9 220.1 ].

(** The [n]-th click: the same image and model, a time stamp of its own. *)
Definition click (n : nat) : request :=
  {| req_clock :=
       {| time_before := 100; time_after := 100.5;
          now := "run " +:+ str_int (Z.of_nat n) |};
     req_image := Some 1%positive;
     req_model := "YOLOv8n";
     req_conf := 0.25;
     req_iou := 0.45 |}.

Definition clicks (n : nat) : list request := map click (seq 1 n).

(** After 52 runs the history holds the runs 3 to 52, oldest first. *)
Example fifty_two_runs :
  map timestamp
    (detection_history (snd (serve_all (clicks 52) (Canvas.demo_state example_boxes))))
  = map (fun n => "run " +:+ str_int (Z.of_nat n)) (seq 3 50).
Proof. vm_compute. reflexivity. Qed.

(** The state after fifty runs: the history is full. *)
Definition fifty_runs : state :=
  snd (serve_all (clicks 50) (Canvas.demo_state example_boxes)).

(** The first run appends its entry to the empty history; the 51st run on
    the full history appends its entry and drops the oldest; of 52 runs
    that all went through, 50 entries are kept. *)
Lemma history_is_bounded_fifo_witness :
  map timestamp
    (detection_history (snd (serve (click 1) (Canvas.demo_state example_boxes))))
  = ["run 1"]
  /\ map timestamp (detection_history (snd (serve (click 51) fifty_runs)))
     = (map timestamp (drop 1 (detection_history fifty_runs)) ++ ["run 51"])%list
  /\ length (detection_history fifty_runs) = 50%nat
  /\ count_completed
       (fst (serve_all (clicks 52) (Canvas.demo_state example_boxes))) = 52%nat
  /\ length (detection_history
               (snd (serve_all (clicks 52) (Canvas.demo_state example_boxes))))
     = 50%nat.
Proof.
  destruct (history_is_bounded_fifo (V := Canvas.vision))
    as (Hone & _ & Hseq).
  split; [| split; [| split; [| split]]].
  - pose (s := Canvas.demo_state example_boxes).
    pose (run := run_model "YOLOv8n" (Canvas.answer example_boxes) 1%positive
                   0.25 0.45 s).
    pose (vis := create_visualization 1%positive
                   [ {| boxes := Some example_boxes |} ] "YOLOv8n"
                   (PrimFloat.sub 100.5 100) (snd run)).
    destruct (Hone (click 1) s 1%positive (Canvas.answer example_boxes)
                [ {| boxes := Some example_boxes |} ] (snd run) 4%positive
                [penguin_record] (snd vis)) as [_ Hhist].
    + reflexivity.
    + reflexivity.
    + vm_compute. reflexivity.
    + vm_compute. reflexivity.
    + apply (f_equal (map timestamp)) in Hhist.
      etrans; [exact Hhist | vm_compute; reflexivity].
  - pose (run := run_model "YOLOv8n" (Canvas.answer example_boxes) 1%positive
                   0.25 0.45 fifty_runs).
    pose (vis := create_visualization 1%positive
                   [ {| boxes := Some example_boxes |} ] "YOLOv8n"
                   (PrimFloat.sub 100.5 100) (snd run)).
    destruct (Hone (click 51) fifty_runs 1%positive
                (Canvas.answer example_boxes)
                [ {| boxes := Some example_boxes |} ] (snd run) 154%positive
                [penguin_record] (snd vis)) as [_ Hhist].
    + reflexivity.
    + vm_compute. reflexivity.
    + vm_compute. reflexivity.
    + vm_compute. reflexivity.
    + apply (f_equal (map timestamp)) in Hhist.
      etrans; [exact Hhist | vm_compute; reflexivity].
  - vm_compute. reflexivity.
  - vm_compute. reflexivity.
  - destruct (Hseq (clicks 52) (Canvas.demo_state example_boxes))
      as (_ & entries & Hcount & Hhist); [simpl; lia |].
    assert (Hn : length entries = 52%nat).
    { rewrite Hcount. vm_compute. reflexivity. }
    rewrite Hhist. unfold slice_last. rewrite length_drop.
    change (detection_history (Canvas.demo_state example_boxes)) with
      (@nil history_entry).
    simpl. rewrite Hn. reflexivity.
Defined.

Definition example_call : M detect_return :=
  detect_objects Canvas.demo_clock (Some 1%positive) "YOLOv8n" 0.25 0.45.

Lemma successful_inference_appends_entry_witness :
  completed (fst (example_call (Canvas.demo_state example_boxes))) = true
  /\ (detections <$> last (detection_history
                             (snd (example_call (Canvas.demo_state example_boxes)))))
     = Some 1.
Proof.
  pose (s := Canvas.demo_state example_boxes).
  pose (run := run_model "YOLOv8n" (Canvas.answer example_boxes) 1%positive
                 0.25 0.45 s).
  pose (vis := create_visualization 1%positive [ {| boxes := Some example_boxes |} ]
                 "YOLOv8n" (PrimFloat.sub 100.5 100) (snd run)).
  destruct (successful_inference_appends_entry (V := Canvas.vision)
              Canvas.demo_clock 1%positive "YOLOv8n" 0.25%float 0.45%float s
              (Canvas.answer example_boxes)
              [ {| boxes := Some example_boxes |} ] (snd run)
              4%positive
              [ {| class := "penguin"; confidence := 0.875;
                   bbox := [10; 20; 110; 220]; color := "#45B7D1" |} ]
              (snd vis))
    as (Hdone & Hlast & _).
  - vm_compute. reflexivity.
  - vm_compute. reflexivity.
  - vm_compute. reflexivity.
  - split; [exact Hdone |].
    apply (f_equal (fmap detections)) in Hlast. exact Hlast.
Defined.

Lemma early_return_changes_nothing_witness :
  fst (detect_objects Canvas.demo_clock (Some 1%positive) "YOLOv11" 0.25 0.45
         (Canvas.demo_state example_boxes))
  = Ok (Return4 None "Model YOLOv11 not available" None EmptyString).
Proof.
  destruct (early_return_changes_nothing (V := Canvas.vision) Canvas.demo_clock
              1%positive "YOLOv11" 0.25%float 0.45%float
              (Canvas.demo_state example_boxes)) as [_ Hmissing].
  destruct Hmissing as (Heq & _ & _).
  - vm_compute. reflexivity.
  - exact (f_equal fst Heq).
Defined.

Lemma create_detection_summary_never_divides_by_zero_witness :
  Z.of_nat (length [penguin_record; unlisted_record]) <> 0.
Proof.
  destruct (create_detection_summary_never_divides_by_zero
              [penguin_record; unlisted_record] "YOLOv8n" 0.5%float)
    as (_ & _ & _ & Hnonempty).
  destruct Hnonempty as [Hlen _].
  - discriminate.
  - exact Hlen.
Defined.

Example create_detection_summary_example :
  create_detection_summary [penguin_record; unlisted_record; penguin_record]
    "YOLOv8n" 0.5
  = Ok ("## 🎯 Detection Summary" +:+ nl +:+
        "**Model Used:** YOLOv8n" +:+ nl +:+
        "**Inference Time:** 0.50s" +:+ nl +:+
        "**Total Objects:** 3" +:+ nl +:+
        "**Average Confidence:** 0.75" +:+ nl +:+ nl +:+
        "### 📊 Detected Objects:" +:+ nl +:+
        "🐧 **Penguin:** 2" +:+ nl +:+
        "🔹 **Class_7:** 1" +:+ nl).
Proof. vm_compute. reflexivity. Qed.

(** The state after three runs, and its report. *)
Definition three_runs : state :=
  snd (serve_all (clicks 3) (Canvas.demo_state example_boxes)).

Example get_detection_history_example :
  fst (get_detection_history three_runs)
  = Ok ("## 📈 Detection History" +:+ nl +:+ nl +:+
        "**1.** run 3 | Model: YOLOv8n | Objects: 1 | Time: 0.50s" +:+ nl +:+
        "**2.** run 2 | Model: YOLOv8n | Objects: 1 | Time: 0.50s" +:+ nl +:+
        "**3.** run 1 | Model: YOLOv8n | Objects: 1 | Time: 0.50s" +:+ nl).
Proof. vm_compute. reflexivity. Qed.

Lemma get_detection_history_recent_first_witness :
  fst (get_detection_history three_runs)
  = Ok (history_report (detection_history three_runs))
  /\ fst (get_detection_history (Canvas.demo_state example_boxes))
     = Ok "No detection history available.".
Proof.
  split.
  - destruct (get_detection_history_recent_first (V := Canvas.vision) three_runs)
      as (_ & _ & Hsome & _).
    apply Hsome. vm_compute. discriminate.
  - destruct (get_detection_history_recent_first (V := Canvas.vision)
                (Canvas.demo_state example_boxes)) as (_ & Hnone & _).
    apply Hnone. reflexivity.
Defined.

(** ** Properties of the model registry *)

Section StartupProperties.
Context {V : Vision} {W : Weights}.

(** The handle that the loop stores for an entry of [MODEL_PATHS], if any:
    the file exists and the constructor returns. *)
Definition loaded (model_path : string) : option handle :=
  if os_path_exists model_path then
    match YOLO model_path with
    | inl m => Some m
    | inr _ => None
    end
  else None.

Definition PATH_N : string := "../yolov8n/runs/detect_train/weights/best.pt".
Definition PATH_S : string := "../yolov8s/runs/detect_train/weights/best.pt".

Lemma model_paths_cases name path :
  (name, path) ∈ MODEL_PATHS ->
  (name = "YOLOv8n" /\ path = PATH_N) \/ (name = "YOLOv8s" /\ path = PATH_S).
Proof.
  unfold MODEL_PATHS. intros H.
  apply elem_of_cons in H as [[= -> ->] | H]; [by left |].
  apply elem_of_cons in H as [[= -> ->] | H]; [by right |].
  by apply elem_of_nil in H.
Qed.

(** The registry after the loop, entry by entry. *)
Lemma load_custom_models :
  reg_models load_custom
  = (match loaded PATH_S with
     | Some m => <["YOLOv8s" := m]>
     | None => fun r => r
     end)
      (match loaded PATH_N with
       | Some m => <["YOLOv8n" := m]> ∅
       | None => ∅
       end).
Proof.
  unfold load_custom, MODEL_PATHS, loaded, PATH_S, PATH_N. cbn [fold_left].
  unfold load_one, print.
  destruct (os_path_exists "../yolov8n/runs/detect_train/weights/best.pt");
    [destruct (YOLO "../yolov8n/runs/detect_train/weights/best.pt") |];
    (destruct (os_path_exists "../yolov8s/runs/detect_train/weights/best.pt");
     [destruct (YOLO "../yolov8s/runs/detect_train/weights/best.pt") |]);
    reflexivity.
Qed.

Lemma load_custom_available :
  available_models load_custom
  = ((match loaded PATH_N with Some _ => ["YOLOv8n"] | None => [] end)
     ++ (match loaded PATH_S with Some _ => ["YOLOv8s"] | None => [] end))%list.
Proof.
  unfold load_custom, MODEL_PATHS, loaded, PATH_S, PATH_N. cbn [fold_left].
  unfold load_one, print.
  destruct (os_path_exists "../yolov8n/runs/detect_train/weights/best.pt");
    [destruct (YOLO "../yolov8n/runs/detect_train/weights/best.pt") |];
    (destruct (os_path_exists "../yolov8s/runs/detect_train/weights/best.pt");
     [destruct (YOLO "../yolov8s/runs/detect_train/weights/best.pt") |]);
    reflexivity.
Qed.

(** What the loop prints for one entry. *)
Definition load_message (model_name model_path : string) : string :=
  if os_path_exists model_path then
    match YOLO model_path with
    | inl _ => "✅ Loaded " +:+ model_name +:+ " model: " +:+ model_path
    | inr e => "❌ Failed to load " +:+ model_name +:+ " model: " +:+ e
    end
  else "⚠️ " +:+ model_name +:+ " model not found: " +:+ model_path.

Lemma load_custom_printed :
  printed load_custom
  = [load_message "YOLOv8n" PATH_N; load_message "YOLOv8s" PATH_S].
Proof.
  unfold load_custom, MODEL_PATHS, load_message, PATH_S, PATH_N. cbn [fold_left].
  unfold load_one, print.
  destruct (os_path_exists "../yolov8n/runs/detect_train/weights/best.pt");
    [destruct (YOLO "../yolov8n/runs/detect_train/weights/best.pt") |];
    (destruct (os_path_exists "../yolov8s/runs/detect_train/weights/best.pt");
     [destruct (YOLO "../yolov8s/runs/detect_train/weights/best.pt") |]);
    reflexivity.
Qed.

Lemma loaded_some model_path m :
  os_path_exists model_path = true -> YOLO model_path = inl m ->
  loaded model_path = Some m.
Proof. intros He Hy. unfold loaded. by rewrite He, Hy. Qed.

Lemma loaded_none model_path :
  os_path_exists model_path = false
  \/ (exists e, os_path_exists model_path = true /\ YOLO model_path = inr e) ->
  loaded model_path = None.
Proof.
  unfold loaded. intros [He | (e & He & Hy)]; rewrite He; [done |].
  by rewrite Hy.
Qed.

Lemma load_custom_lookup name path :
  (name, path) ∈ MODEL_PATHS ->
  reg_models load_custom !! name = loaded path
  /\ (name ∈ available_models load_custom <-> is_Some (loaded path)).
Proof.
  intros Hin. rewrite load_custom_models, load_custom_available.
  destruct (model_paths_cases _ _ Hin) as [[-> ->] | [-> ->]];
    destruct (loaded PATH_N) as [n|], (loaded PATH_S) as [s|];
    (split;
     [repeat (rewrite lookup_insert_eq || rewrite lookup_insert_ne by done
              || rewrite lookup_empty); reflexivity |]);
    simpl; rewrite ?elem_of_cons, ?elem_of_nil, ?is_Some_alt;
    (split; intros H;
     [ first [ exact I
             | repeat (destruct H as [H | H]; [discriminate H |]); exact H ]
     | first [ left; reflexivity | right; left; reflexivity | destruct H ] ]).
Qed.

Lemma available_nil_models_empty :
  available_models load_custom = [] -> reg_models load_custom = ∅.
Proof.
  rewrite load_custom_models, load_custom_available.
  destruct (loaded PATH_N), (loaded PATH_S); simpl; intros H;
    try discriminate H; reflexivity.
Qed.

Lemma available_cons_models_nonempty :
  available_models load_custom <> [] -> reg_models load_custom <> ∅.
Proof.
  rewrite load_custom_models, load_custom_available.
  destruct (loaded PATH_N), (loaded PATH_S); simpl; intros H; try done;
    apply insert_non_empty.
Qed.

(** The registry that the fallback builds from the two generic weights. *)
Definition default_registry (n s : handle) (lines : list string) : registry :=
  {| reg_models := <["YOLOv8s" := s]> (<["YOLOv8n" := n]> ∅);
     available_models := ["YOLOv8n"; "YOLOv8s"];
     printed := (lines ++ ["⚠️ Using default YOLO models"])%list |}.

Lemma available_nil_iff :
  available_models load_custom = []
  <-> forall name path, (name, path) ∈ MODEL_PATHS -> loaded path = None.
Proof.
  rewrite load_custom_available. split.
  - intros Hnil name path Hin.
    destruct (model_paths_cases _ _ Hin) as [[-> ->] | [-> ->]];
      destruct (loaded PATH_N), (loaded PATH_S); simpl in Hnil;
      try discriminate Hnil; reflexivity.
  - intros Hall.
    rewrite (Hall "YOLOv8n" PATH_N) by (by left).
    rewrite (Hall "YOLOv8s" PATH_S) by (right; by left).
    reflexivity.
Qed.

(** C4: every custom weight file that exists and loads sits in its named
    slot.  No name is available exactly when no custom file loaded.  When
    at least one did, startup keeps exactly what the loop loaded and does
    not fall back; when none did, startup loads [yolov8n.pt] and
    [yolov8s.pt], and when both load it returns with the two slots holding
    them.  A startup that returns has a model in some slot. *)
Theorem startup_populates_registry :
  (forall name path m,
     (name, path) ∈ MODEL_PATHS ->
     os_path_exists path = true -> YOLO path = inl m ->
     reg_models load_custom !! name = Some m /\
     name ∈ available_models load_custom) /\
  (available_models load_custom = []
   <-> forall name path, (name, path) ∈ MODEL_PATHS -> loaded path = None) /\
  (available_models load_custom <> [] -> startup = Ok load_custom) /\
  (available_models load_custom = [] ->
   reg_models load_custom = ∅ /\
   startup = load_default load_custom /\
   (forall n s,
      YOLO "yolov8n.pt" = inl n -> YOLO "yolov8s.pt" = inl s ->
      startup = Ok (default_registry n s (printed load_custom))) /\
   forall r, startup = Ok r ->
     exists n s,
       YOLO "yolov8n.pt" = inl n /\ YOLO "yolov8s.pt" = inl s /\
       reg_models r = <["YOLOv8s" := s]> (<["YOLOv8n" := n]> ∅) /\
       available_models r = ["YOLOv8n"; "YOLOv8s"]) /\
  (forall r, startup = Ok r ->
     reg_models r <> ∅ /\ available_models r <> []).
Proof.
  assert (Hfallback : available_models load_custom = [] ->
    forall r, load_default load_custom = Ok r ->
      exists n s,
        YOLO "yolov8n.pt" = inl n /\ YOLO "yolov8s.pt" = inl s /\
        reg_models r = <["YOLOv8s" := s]> (<["YOLOv8n" := n]> ∅) /\
        available_models r = ["YOLOv8n"; "YOLOv8s"]).
  { intros Hnil r. unfold load_default.
    rewrite (available_nil_models_empty Hnil).
    destruct (YOLO "yolov8n.pt") as [n|e]; [| discriminate].
    destruct (YOLO "yolov8s.pt") as [s|e]; [| discriminate].
    intros [= <-]. by exists n, s. }
  split; [| split; [| split; [| split]]].
  - intros name path m Hin Hex Hload.
    destruct (load_custom_lookup name path Hin) as [Hlook Havail].
    rewrite (loaded_some _ _ Hex Hload) in Hlook, Havail.
    split; [exact Hlook | by apply Havail].
  - apply available_nil_iff.
  - intros Hne. unfold startup.
    destruct (available_models load_custom); [done | reflexivity].
  - intros Hnil. split; [by apply available_nil_models_empty |].
    assert (Hs : startup = load_default load_custom).
    { unfold startup. by rewrite Hnil. }
    split; [exact Hs |]. split.
    + intros n s Hn Hsm. rewrite Hs. unfold load_default, default_registry, print.
      rewrite Hn, Hsm, (available_nil_models_empty Hnil). reflexivity.
    + intros r Hr. rewrite Hs in Hr. by apply Hfallback.
  - intros r Hr. unfold startup in Hr.
    destruct (available_models load_custom) as [|a rest] eqn:Hav.
    + destruct (Hfallback eq_refl r Hr) as (n & s & _ & _ & -> & ->).
      split; [apply insert_non_empty | done].
    + injection Hr as <-. split; [| by rewrite Hav].
      apply available_cons_models_nonempty. by rewrite Hav.
Qed.

(** C5: an entry of [MODEL_PATHS] whose file is missing or whose load
    raises is reported on the output and its slot is left empty, whatever
    happens to the other entry; the loop goes on and prints one line per
    entry.  Every other entry that exists and loads is in the registry,
    listed as available and reachable by [detect_objects], and startup
    returns with what the loop loaded. *)
Theorem load_failure_is_skipped name path :
  (name, path) ∈ MODEL_PATHS ->
  os_path_exists path = false
  \/ (exists e, os_path_exists path = true /\ YOLO path = inr e) ->
  reg_models load_custom !! name = None /\
  (name ∉ available_models load_custom) /\
  (os_path_exists path = false ->
   ("⚠️ " +:+ name +:+ " model not found: " +:+ path) ∈ printed load_custom) /\
  (forall e, os_path_exists path = true -> YOLO path = inr e ->
   ("❌ Failed to load " +:+ name +:+ " model: " +:+ e) ∈ printed load_custom) /\
  length (printed load_custom) = length MODEL_PATHS /\
  (forall other other_path m,
     (other, other_path) ∈ MODEL_PATHS ->
     os_path_exists other_path = true ->
     YOLO other_path = inl m ->
     startup = Ok load_custom /\
     reg_models load_custom !! other = Some m /\
     other ∈ available_models load_custom /\
     models (initial_state load_custom) !! other = Some m /\
     ("✅ Loaded " +:+ other +:+ " model: " +:+ other_path)
       ∈ printed load_custom).
Proof.
  intros Hin Hfail.
  destruct (load_custom_lookup name path Hin) as [Hlook Havail].
  rewrite (loaded_none _ Hfail) in Hlook, Havail.
  assert (Hlines : forall n p, (n, p) ∈ MODEL_PATHS ->
            load_message n p ∈ printed load_custom).
  { intros n p Hnp. rewrite load_custom_printed.
    destruct (model_paths_cases _ _ Hnp) as [[-> ->] | [-> ->]];
      [by left | right; by left]. }
  pose proof (Hlines name path Hin) as Hmsg.
  split; [exact Hlook |].
  split.
  { intros H. apply Havail in H. by destruct H. }
  split.
  { intros Hmissing. unfold load_message in Hmsg. by rewrite Hmissing in Hmsg. }
  split.
  { intros e He Hy. unfold load_message in Hmsg. by rewrite He, Hy in Hmsg. }
  split; [by rewrite load_custom_printed |].
  intros other other_path m Hin' Hex Hload.
  destruct (load_custom_lookup other other_path Hin') as [Hlook' Havail'].
  rewrite (loaded_some _ _ Hex Hload) in Hlook', Havail'.
  assert (Hother : other ∈ available_models load_custom) by by apply Havail'.
  split.
  { unfold startup. destruct (available_models load_custom); [| reflexivity].
    by apply elem_of_nil in Hother. }
  split; [exact Hlook' |]. split; [exact Hother |]. split; [exact Hlook' |].
  pose proof (Hlines other other_path Hin') as Hmsg'.
  unfold load_message in Hmsg'. by rewrite Hex, Hload in Hmsg'.
Qed.

End StartupProperties.

(** Two file systems: one without any custom weights, one where the small
    model loads and the nano checkpoint is broken. *)
Definition no_custom_weights : Weights :=
  {| os_path_exists := fun _ => false;
     YOLO := fun p => inl (Canvas.answer []) |}.

Definition broken_nano_weights : Weights :=
  {| os_path_exists := fun _ => true;
     YOLO := fun p =>
       if String.eqb p "../yolov8s/runs/detect_train/weights/best.pt"
       then inl (Canvas.answer example_boxes)
       else inr "invalid checkpoint" |}.

Example startup_without_custom_weights :
  (available_models <$> (match startup (W := no_custom_weights) with
                         | Ok r => Some r
                         | Raise _ => None
                         end))
  = Some ["YOLOv8n"; "YOLOv8s"].
Proof. vm_compute. reflexivity. Qed.

Example startup_with_broken_nano :
  match startup (W := broken_nano_weights) with
  | Ok r =>
      available_models r = ["YOLOv8s"] /\
      printed r
      = [ "❌ Failed to load YOLOv8n model: invalid checkpoint";
          "✅ Loaded YOLOv8s model: ../yolov8s/runs/detect_train/weights/best.pt" ]
  | Raise _ => False
  end.
Proof. vm_compute. split; reflexivity. Qed.

(** Without custom weights the fallback fills both slots; with the broken
    nano checkpoint the small model sits in its slot. *)
Lemma startup_populates_registry_witness :
  startup (W := no_custom_weights)
  = Ok (default_registry (Canvas.answer []) (Canvas.answer [])
          [ "⚠️ YOLOv8n model not found: ../yolov8n/runs/detect_train/weights/best.pt";
            "⚠️ YOLOv8s model not found: ../yolov8s/runs/detect_train/weights/best.pt" ])
  /\ reg_models (load_custom (W := broken_nano_weights)) !! "YOLOv8s"
     = Some (Canvas.answer example_boxes).
Proof.
  split.
  - destruct (startup_populates_registry (W := no_custom_weights))
      as (_ & _ & _ & Hfallback & _).
    destruct Hfallback as (_ & _ & Hboth & _); [vm_compute; reflexivity |].
    apply (Hboth (Canvas.answer []) (Canvas.answer [])); reflexivity.
  - destruct (startup_populates_registry (W := broken_nano_weights))
      as (Hcustom & _).
    destruct (Hcustom "YOLOv8s" "../yolov8s/runs/detect_train/weights/best.pt"
                (Canvas.answer example_boxes)) as [Hslot _].
    + right. left.
    + reflexivity.
    + reflexivity.
    + exact Hslot.
Defined.

(** With both custom files missing, the second entry is reported and
    skipped too; with the broken nano checkpoint, the failure is reported
    and startup returns with the small model. *)
Lemma load_failure_is_skipped_witness :
  "⚠️ YOLOv8s model not found: ../yolov8s/runs/detect_train/weights/best.pt"
    ∈ printed (load_custom (W := no_custom_weights))
  /\ "❌ Failed to load YOLOv8n model: invalid checkpoint"
       ∈ printed (load_custom (W := broken_nano_weights))
  /\ startup (W := broken_nano_weights)
     = Ok (load_custom (W := broken_nano_weights)).
Proof.
  split; [| split].
  - destruct (load_failure_is_skipped (W := no_custom_weights)
                "YOLOv8s" "../yolov8s/runs/detect_train/weights/best.pt")
      as (_ & _ & Hmissing & _).
    + right. left.
    + left. reflexivity.
    + apply Hmissing. reflexivity.
  - destruct (load_failure_is_skipped (W := broken_nano_weights)
                "YOLOv8n" "../yolov8n/runs/detect_train/weights/best.pt")
      as (_ & _ & _ & Hraised & _).
    + left.
    + right. exists "invalid checkpoint". split; reflexivity.
    + apply (Hraised "invalid checkpoint"); reflexivity.
  - destruct (load_failure_is_skipped (W := broken_nano_weights)
                "YOLOv8n" "../yolov8n/runs/detect_train/weights/best.pt")
      as (_ & _ & _ & _ & _ & Hother).
    + left.
    + right. exists "invalid checkpoint". split; reflexivity.
    + destruct (Hother "YOLOv8s" "../yolov8s/runs/detect_train/weights/best.pt"
                  (Canvas.answer example_boxes)) as (Hstart & _).
      * right. left.
      * reflexivity.
      * reflexivity.
      * exact Hstart.
Defined.

(** ** Properties of the training scripts *)

Section TrainProperties.
Context {T : Train.Trainer}.

(** Case analysis on every library call of a script, innermost first. *)
Ltac split_calls :=
  repeat match goal with
         | |- context [match ?x with _ => _ end] =>
             lazymatch x with
             | context [match _ with _ => _ end] => fail
             | _ => destruct x; simpl
             end
         end.

Lemma validate_predict_test_writes model DATA_YAML IMG_SIZE DEVICE w :
  fst (Train.validate_predict_test model DATA_YAML IMG_SIZE DEVICE w) = Ok tt ->
  Train.files (snd (Train.validate_predict_test model DATA_YAML IMG_SIZE DEVICE w))
    !! Train.test_yaml_path
  = Some (Train.yaml_dump Train.test_yaml).
Proof.
  unfold Train.validate_predict_test, Train.report_map50, Train.write_file,
    Train.bind, Train.lift, Train.print.
  split_calls; try discriminate; intros _; apply lookup_insert_eq.
Qed.

Lemma bind_returns {A B} (m : Train.M A) (k : A -> Train.M B) w b :
  fst (Train.bind m k w) = Ok b ->
  exists a w1, m w = (Ok a, w1) /\ Train.bind m k w = k a w1.
Proof.
  unfold Train.bind. destruct (m w) as [[a|e] w1]; [| discriminate].
  intros _. by exists a, w1.
Qed.

(** One step into a script that is known to return. *)
Ltac enter_bind H :=
  let Hm := fresh "Hm" in
  let Heq := fresh "Heq" in
  destruct (bind_returns _ _ _ _ H) as (? & ? & Hm & Heq);
  rewrite Heq in H |- *; clear Hm Heq.

(** C7: a run of either script that returns has written [test_data.yaml]
    next to the script, with the dump of a dictionary whose [nc] is 7 and
    whose [names] are the seven class labels in order. *)
Theorem scripts_write_label_map (w : Train.world) :
  (fst (Train.main_train_and_test_yolov8 w) = Ok tt ->
   Train.files (snd (Train.main_train_and_test_yolov8 w))
     !! Train.abspath (Train.path_join Train.script_dir "test_data.yaml")
   = Some (Train.yaml_dump Train.test_yaml)) /\
  (fst (Train.main_train_test_yolov8s w) = Ok tt ->
   Train.files (snd (Train.main_train_test_yolov8s w))
     !! Train.abspath (Train.path_join Train.script_dir "test_data.yaml")
   = Some (Train.yaml_dump Train.test_yaml)) /\
  Train.doc_lookup Train.test_yaml "nc" = Some (Train.YInt 7) /\
  Train.doc_lookup Train.test_yaml "names"
  = Some (Train.YList ["fish"; "jellyfish"; "penguin"; "puffin"; "shark";
                       "starfish"; "stingray"]).
Proof.
  split; [| split; [| split; reflexivity]].
  - intros H. unfold Train.main_train_and_test_yolov8 in *. cbv zeta in *.
    do 4 enter_bind H. by apply validate_predict_test_writes.
  - intros H. unfold Train.main_train_test_yolov8s in *. cbv zeta in *.
    do 2 enter_bind H. by apply validate_predict_test_writes.
Qed.

End TrainProperties.

(** *** A run of the scripts in which every library call returns *)

Module PlainRun.
Import Train.

Definition render_item (item : string * yaml_value) : string :=
  let '(key, value) := item in
  match value with
  | YStr EmptyString => key +:+ ": ''" +:+ nl
  | YStr s => key +:+ ": " +:+ s +:+ nl
  | YInt n => key +:+ ": " +:+ str_int n +:+ nl
  | YList items =>
      key +:+ ":" +:+ nl
        +:+ foldr String.append EmptyString (map (fun i => "- " +:+ i +:+ nl) items)
  end.

Fixpoint insert_by_key (item : string * yaml_value) (doc : yaml_doc) : yaml_doc :=
  match doc with
  | [] => [item]
  | first :: rest =>
      if String.leb (fst item) (fst first) then item :: first :: rest
      else first :: insert_by_key item rest
  end.

(** A dump in block style with the keys in sorted order, for dictionaries
    of plain scalars and lists of plain scalars. *)
Definition dump (doc : yaml_doc) : string :=
  foldr String.append EmptyString (map render_item (foldr insert_by_key [] doc)).

Definition trainer : Trainer :=
  {| yolo := unit;
     metrics := float;
     cuda_is_available := false;
     cuda_get_device_name := fun _ => "none";
     YOLO := fun _ => Ok tt;
     model_train := fun m _ => Ok m;
     model_val := fun _ _ => Ok 0.75%float;
     model_predict := fun _ _ => Ok tt;
     box_map50 := fun v => inl v;
     script_dir := "/home/user/yolov8s";
     path_join := fun a b => a +:+ "/" +:+ b;
     abspath := fun p => p;
     today := "20250101";
     yaml_dump := dump;
     open_for_writing := fun _ => Ok tt |}.

Definition empty_world : world := {| files := ∅; stdout := [] |}.

End PlainRun.

Example label_map_text :
  Train.files (snd (Train.main_train_test_yolov8s (T := PlainRun.trainer)
                      PlainRun.empty_world))
    !! "/home/user/yolov8s/test_data.yaml"
  = Some ("names:" +:+ nl +:+
          "- fish" +:+ nl +:+ "- jellyfish" +:+ nl +:+ "- penguin" +:+ nl +:+
          "- puffin" +:+ nl +:+ "- shark" +:+ nl +:+ "- starfish" +:+ nl +:+
          "- stingray" +:+ nl +:+
          "nc: 7" +:+ nl +:+
          "path: /home/user/yolov8s/test" +:+ nl +:+
          "train: ''" +:+ nl +:+
          "val: images" +:+ nl).
Proof. vm_compute. reflexivity. Qed.

Example script_output :
  Train.stdout (snd (Train.main_train_and_test_yolov8 (T := PlainRun.trainer)
                       PlainRun.empty_world))
  = [ "CUDA available: False"; "Using CPU";
      "Validation mAP50: 75.00 out of 100";
      "Training, validation, and prediction complete!";
      "Predictions saved to: /home/user/yolov8s/predicted_images_20250101";
      "Test set mAP50: 75.00 out of 100" ].
Proof. vm_compute. reflexivity. Qed.

Lemma scripts_write_label_map_witness :
  Train.files (snd (Train.main_train_and_test_yolov8 (T := PlainRun.trainer)
                      PlainRun.empty_world))
    !! "/home/user/yolov8s/test_data.yaml"
  = Some (PlainRun.dump (Train.test_yaml (T := PlainRun.trainer)))
  /\ Train.files (snd (Train.main_train_test_yolov8s (T := PlainRun.trainer)
                         PlainRun.empty_world))
       !! "/home/user/yolov8s/test_data.yaml"
     = Some (PlainRun.dump (Train.test_yaml (T := PlainRun.trainer))).
Proof.
  destruct (scripts_write_label_map (T := PlainRun.trainer) PlainRun.empty_world)
    as (Hfirst & Hsecond & _).
  split.
  - apply Hfirst. vm_compute. reflexivity.
  - apply Hsecond. vm_compute. reflexivity.
Defined.

(** ** Counting by class, the summary and the chart *)

Section CountingProperties.

(** *** Dictionaries in insertion order *)

Lemma assoc_get_set_eq {B} (d : list (string * B)) k v default :
  assoc_get (assoc_set d k v) k default = v.
Proof.
  induction d as [|[k' v'] d IH]; simpl.
  - by rewrite String.eqb_refl.
  - destruct (String.eqb k' k) eqn:E; simpl; rewrite E; [done | exact IH].
Qed.

Lemma assoc_get_set_ne {B} (d : list (string * B)) k k2 v default :
  k <> k2 -> assoc_get (assoc_set d k v) k2 default = assoc_get d k2 default.
Proof.
  intros Hne. induction d as [|[k' v'] d IH]; simpl.
  - destruct (String.eqb k k2) eqn:E; [| done].
    apply String.eqb_eq in E. contradiction.
  - destruct (String.eqb k' k) eqn:E; simpl;
      destruct (String.eqb k' k2) eqn:E2; try done.
    apply String.eqb_eq in E, E2. congruence.
Qed.

Lemma assoc_set_keys {B} (d : list (string * B)) k v :
  map fst (assoc_set d k v)
  = if decide (k ∈ map fst d) then map fst d else (map fst d ++ [k])%list.
Proof.
  induction d as [|[k' v'] d IH]; simpl.
  - destruct (decide (k ∈ [])) as [Hin | _]; [by apply elem_of_nil in Hin | done].
  - destruct (String.eqb k' k) eqn:E; simpl.
    + apply String.eqb_eq in E as ->.
      destruct (decide (k ∈ k :: map fst d)) as [_ | Hn]; [done |].
      exfalso. apply Hn. by left.
    + apply String.eqb_neq in E. rewrite IH.
      destruct (decide (k ∈ map fst d)) as [Hin | Hn];
        destruct (decide (k ∈ k' :: map fst d)) as [Hin' | Hn']; try done.
      * exfalso. apply Hn'. by right.
      * apply elem_of_cons in Hin' as [-> | Hin']; [done | contradiction].
Qed.

(** The sum of the values of a dictionary of counters. *)
Definition total (d : list (string * Z)) : Z := foldr Z.add 0 (map snd d).

Lemma total_increment (d : list (string * Z)) k :
  total (assoc_set d k (assoc_get d k 0 + 1)) = total d + 1.
Proof.
  unfold total. induction d as [|[k' v'] d IH]; simpl; [done |].
  destruct (String.eqb k' k); simpl; [lia |]. rewrite IH. lia.
Qed.

Lemma assoc_get_nonneg (d : list (string * Z)) k :
  Forall (fun kv => 1 <= snd kv) d -> 0 <= assoc_get d k 0.
Proof.
  induction 1 as [|[k' v'] d Hv _ IH]; simpl; [done |].
  destruct (String.eqb k' k); [simpl in Hv; lia | exact IH].
Qed.

Lemma assoc_set_Forall {B} (P : B -> Prop) (d : list (string * B)) k v :
  Forall (fun kv => P (snd kv)) d -> P v ->
  Forall (fun kv => P (snd kv)) (assoc_set d k v).
Proof.
  intros Hd Hv. induction Hd as [|[k' v'] d Hv' Hd IH]; simpl.
  - by repeat constructor.
  - destruct (String.eqb k' k); by constructor.
Qed.

(** *** [count_by_class] *)

(** One turn of the counting loop. *)
Definition count_step (class_counts : list (string * Z)) (d : detection)
  : list (string * Z) :=
  assoc_set class_counts (class d) (assoc_get class_counts (class d) 0 + 1).

(** The number of records of class [c]. *)
Definition count_class (c : string) (data : list detection) : nat :=
  length (filter (fun d => class d = c) data).

Lemma count_fold_get data c :
  forall cc,
    assoc_get (fold_left count_step data cc) c 0
    = assoc_get cc c 0 + Z.of_nat (count_class c data).
Proof.
  unfold count_class.
  induction data as [|d data IH]; intros cc; simpl; [lia |].
  rewrite IH. unfold count_step.
  destruct (decide (class d = c)) as [<- | Hne].
  - rewrite assoc_get_set_eq, filter_cons_True by done. simpl. lia.
  - rewrite assoc_get_set_ne, filter_cons_False by done. lia.
Qed.

Lemma count_fold_total data :
  forall cc, total (fold_left count_step data cc)
             = total cc + Z.of_nat (length data).
Proof.
  induction data as [|d data IH]; intros cc; simpl; [lia |].
  rewrite IH. unfold count_step. rewrite total_increment. lia.
Qed.

Lemma count_fold_keys data c :
  forall cc,
    c ∈ map fst (fold_left count_step data cc)
    <-> c ∈ map fst cc \/ c ∈ map class data.
Proof.
  induction data as [|d data IH]; intros cc; simpl.
  - split; [by left | intros [H | H]; [done | by apply elem_of_nil in H]].
  - rewrite IH. unfold count_step. rewrite assoc_set_keys.
    rewrite elem_of_cons.
    destruct (decide (class d ∈ map fst cc)) as [Hin | Hn].
    + split; [tauto |]. intros [H | [-> | H]]; tauto.
    + rewrite elem_of_app, list_elem_of_singleton. tauto.
Qed.

Lemma count_fold_nodup data :
  forall cc, NoDup (map fst cc) ->
             NoDup (map fst (fold_left count_step data cc)).
Proof.
  induction data as [|d data IH]; intros cc Hcc; simpl; [done |].
  apply IH. unfold count_step. rewrite assoc_set_keys.
  destruct (decide (class d ∈ map fst cc)) as [Hin | Hn]; [done |].
  apply NoDup_app. split; [done |]. split.
  - intros x Hx Hx'. apply list_elem_of_singleton in Hx'. by subst.
  - apply NoDup_singleton.
Qed.

Lemma count_fold_positive data :
  forall cc, Forall (fun kv => 1 <= snd kv) cc ->
             Forall (fun kv => 1 <= snd kv) (fold_left count_step data cc).
Proof.
  induction data as [|d data IH]; intros cc Hcc; simpl; [done |].
  apply IH. unfold count_step.
  apply (assoc_set_Forall (fun v => 1 <= v)); [done |].
  pose proof (assoc_get_nonneg cc (class d) Hcc). lia.
Qed.

Lemma count_by_class_get data c :
  assoc_get (count_by_class data) c 0 = Z.of_nat (count_class c data).
Proof.
  change (count_by_class data) with (fold_left count_step data []).
  by rewrite count_fold_get.
Qed.

Lemma count_by_class_keys data c :
  c ∈ map fst (count_by_class data) <-> c ∈ map class data.
Proof.
  change (count_by_class data) with (fold_left count_step data []).
  rewrite count_fold_keys. simpl. split; [| by right].
  intros [H | H]; [by apply elem_of_nil in H | done].
Qed.

Lemma count_by_class_nodup data : NoDup (map fst (count_by_class data)).
Proof.
  change (count_by_class data) with (fold_left count_step data []).
  apply count_fold_nodup. constructor.
Qed.

Lemma count_by_class_positive data :
  Forall (fun kv => 1 <= snd kv) (count_by_class data).
Proof.
  change (count_by_class data) with (fold_left count_step data []).
  by apply count_fold_positive.
Qed.

Lemma count_by_class_total data :
  total (count_by_class data) = Z.of_nat (length data).
Proof.
  change (count_by_class data) with (fold_left count_step data []).
  by rewrite count_fold_total.
Qed.

(** X1: [count_by_class] holds one key per class that occurs among the
    records, each once; the counter of a class is the number of records of
    that class (0 for a class that does not occur); every counter is at
    least 1 and the counters add up to the number of records. *)
Theorem count_by_class_counts (data : list detection) (c : string) :
  assoc_get (count_by_class data) c 0 = Z.of_nat (count_class c data) /\
  (c ∈ map fst (count_by_class data) <-> c ∈ map class data) /\
  NoDup (map fst (count_by_class data)) /\
  Forall (fun kv => 1 <= snd kv) (count_by_class data) /\
  total (count_by_class data) = Z.of_nat (length data).
Proof.
  split; [apply count_by_class_get |].
  split; [apply count_by_class_keys |].
  split; [apply count_by_class_nodup |].
  split; [apply count_by_class_positive | apply count_by_class_total].
Qed.

Lemma assoc_get_lookup {B} (d : list (string * B)) i k v default :
  NoDup (map fst d) -> d !! i = Some (k, v) -> assoc_get d k default = v.
Proof.
  revert i. induction d as [|[k' v'] d IH]; intros i Hnd Hi; [done |].
  simpl in Hnd. apply NoDup_cons in Hnd as [Hk' Hnd].
  destruct i as [|i]; simpl in *.
  - injection Hi as -> ->. by rewrite String.eqb_refl.
  - destruct (String.eqb k' k) eqn:E; [| by eapply IH].
    apply String.eqb_eq in E as ->. exfalso. apply Hk'.
    apply list_elem_of_fmap. exists (k, v). split; [done |].
    by eapply list_elem_of_lookup_2.
Qed.

(** *** [create_detection_chart] *)

Lemma class_colors_listed c :
  c ∈ UNDERWATER_CLASSES -> exists col, CLASS_COLORS !! c = Some col.
Proof.
  unfold UNDERWATER_CLASSES. intros H.
  repeat (apply elem_of_cons in H as [-> | H]; [by eexists |]).
  by apply elem_of_nil in H.
Qed.

Lemma class_colors_unlisted c :
  c ∉ UNDERWATER_CLASSES -> CLASS_COLORS !! c = None.
Proof.
  unfold UNDERWATER_CLASSES, CLASS_COLORS. intros H.
  repeat (rewrite lookup_insert_ne;
          [| intros <-; apply H; rewrite !elem_of_cons; tauto]).
  apply lookup_empty.
Qed.

(** X2: the chart is [None] exactly for the empty list.  Otherwise it has
    one bar per class among the records, each class once; bar [i] carries
    the number of records of its class, at least 1, and the colour
    [CLASS_COLORS.get(cls, '#888888')]; the bars add up to the number of
    records. *)
Theorem create_detection_chart_bars (data : list detection) :
  (create_detection_chart data = None <-> data = []) /\
  forall fig, create_detection_chart data = Some fig ->
    length (bar_y fig) = length (bar_x fig) /\
    length (bar_marker_color fig) = length (bar_x fig) /\
    NoDup (bar_x fig) /\
    (forall c, c ∈ bar_x fig <-> c ∈ map class data) /\
    foldr Z.add 0 (bar_y fig) = Z.of_nat (length data) /\
    forall i c, bar_x fig !! i = Some c ->
      bar_y fig !! i = Some (Z.of_nat (count_class c data)) /\
      (1 <= count_class c data)%nat /\
      bar_marker_color fig !! i = Some (dict_get CLASS_COLORS c "#888888").
Proof.
  split.
  { destruct data; simpl; split; intros H; done. }
  intros fig Hfig. destruct data as [|d0 rest]; [done |].
  set (data := d0 :: rest) in *.
  unfold create_detection_chart in Hfig. injection Hfig as <-.
  cbn [bar_x bar_y bar_marker_color]. rewrite !length_map.
  split; [done |]. split; [done |].
  split; [apply (count_by_class_nodup data) |].
  split; [intros c; apply (count_by_class_keys data) |].
  split; [apply (count_by_class_total data) |].
  intros i c Hi.
  rewrite list_lookup_fmap in Hi.
  destruct (count_by_class data !! i) as [[k v]|] eqn:Hkv; [| done].
  simpl in Hi. injection Hi as ->.
  assert (Hv : v = Z.of_nat (count_class c data)).
  { rewrite <- (count_by_class_get data c).
    symmetry. eapply assoc_get_lookup; [apply count_by_class_nodup | exact Hkv]. }
  split; [by rewrite list_lookup_fmap, Hkv, Hv |].
  split.
  { pose proof (count_by_class_positive data) as Hpos.
    rewrite Forall_forall in Hpos.
    specialize (Hpos (c, v) (list_elem_of_lookup_2 _ _ _ Hkv)). simpl in Hpos.
    lia. }
  rewrite !list_lookup_fmap, Hkv. reflexivity.
Qed.

(** X3: for a record of one of the seven labels, coloured as
    [create_visualization] colours it, the bar of its class in the chart has
    the record's colour; for any other class the bar is ['#888888'] while
    the record is ['#FFFFFF']. *)
Theorem chart_and_box_colours (data : list detection) fig i d :
  create_detection_chart data = Some fig ->
  bar_x fig !! i = Some (class d) ->
  color d = dict_get CLASS_COLORS (class d) "#FFFFFF" ->
  (class d ∈ UNDERWATER_CLASSES ->
   bar_marker_color fig !! i = Some (color d)) /\
  (class d ∉ UNDERWATER_CLASSES ->
   bar_marker_color fig !! i = Some "#888888" /\ color d = "#FFFFFF").
Proof.
  intros Hfig Hi Hcol.
  assert (Hbar : bar_marker_color fig !! i
                 = Some (dict_get CLASS_COLORS (class d) "#888888")).
  { destruct data as [|d0 rest]; [done |].
    unfold create_detection_chart in Hfig. injection Hfig as <-.
    cbn [bar_x bar_marker_color] in *.
    rewrite list_lookup_fmap, Hi. reflexivity. }
  rewrite Hbar, Hcol. unfold dict_get. split.
  - intros Hin. destruct (class_colors_listed _ Hin) as [col ->]. reflexivity.
  - intros Hout. by rewrite (class_colors_unlisted _ Hout).
Qed.

(** *** The text of [create_detection_summary] *)

(** The lines above the list of classes. *)
Definition summary_head (data : list detection) (model_name : string)
    (inference_time : float) : string :=
  "## 🎯 Detection Summary" +:+ nl
    +:+ "**Model Used:** " +:+ model_name +:+ nl
    +:+ "**Inference Time:** " +:+ format_2f inference_time +:+ "s" +:+ nl
    +:+ "**Total Objects:** " +:+ str_int (Z.of_nat (length data)) +:+ nl
    +:+ "**Average Confidence:** "
    +:+ format_2f (PrimFloat.div (sum_float (map confidence data))
                     (float_of_int (Z.of_nat (length data))))
    +:+ nl +:+ nl
    +:+ "### 📊 Detected Objects:" +:+ nl.

(** The line of one class and its count. *)
Definition class_line (item : string * Z) : string :=
  dict_get CLASS_EMOJI (fst item) "🔹" +:+ " **" +:+ capitalize (fst item)
    +:+ ":** " +:+ str_int (snd item) +:+ nl.

Lemma summary_line_text summary item :
  summary_line summary item = summary +:+ class_line item.
Proof.
  destruct item as [c n]. unfold summary_line, class_line. cbv beta iota zeta.
  cbn [fst snd]. reflexivity.
Qed.

Lemma fold_summary_lines (cc : list (string * Z)) :
  forall summary,
    fold_left summary_line cc summary
    = summary +:+ foldr String.append EmptyString (map class_line cc).
Proof.
  induction cc as [|item cc IH]; intros summary; cbn [fold_left foldr map].
  - by rewrite append_empty_r.
  - rewrite IH, summary_line_text, append_assoc. reflexivity.
Qed.

(** X4: for at least one record the summary is the head (model, latency,
    number of records, average confidence) followed by one line per class
    of [count_by_class], in its order; the counts on those lines add up to
    the number printed as total. *)
Theorem create_detection_summary_text (data : list detection) name t :
  data <> [] ->
  create_detection_summary data name t
  = Ok (summary_head data name t
          +:+ foldr String.append EmptyString
                (map class_line (count_by_class data))) /\
  length (map class_line (count_by_class data))
  = length (map fst (count_by_class data)) /\
  foldr Z.add 0 (map snd (count_by_class data)) = Z.of_nat (length data).
Proof.
  intros Hne. split; [| split; [by rewrite !length_map |]].
  2:{ apply (count_by_class_total data). }
  destruct data as [|d0 rest]; [done |].
  set (data := d0 :: rest) in *.
  unfold create_detection_summary. fold data.
  rewrite truediv_nonzero by (subst data; simpl length; lia).
  cbv zeta. rewrite fold_summary_lines. f_equal. f_equal.
  unfold summary_head. repeat rewrite append_assoc. reflexivity.
Qed.

End CountingProperties.

Example chart_example :
  create_detection_chart [penguin_record; unlisted_record; penguin_record]
  = Some {| bar_x := ["penguin"; "class_7"]; bar_y := [2; 1];
            bar_marker_color := ["#45B7D1"; "#888888"] |}.
Proof. vm_compute. reflexivity. Qed.

Lemma chart_and_box_colours_witness :
  bar_marker_color
    {| bar_x := ["penguin"; "class_7"]; bar_y := [2; 1];
       bar_marker_color := ["#45B7D1"; "#888888"] |} !! 1%nat
  = Some "#888888"
  /\ color unlisted_record = "#FFFFFF".
Proof.
  destruct (chart_and_box_colours
              [penguin_record; unlisted_record; penguin_record]
              {| bar_x := ["penguin"; "class_7"]; bar_y := [2; 1];
                 bar_marker_color := ["#45B7D1"; "#888888"] |}
              1%nat unlisted_record) as [_ Hunlisted].
  - vm_compute. reflexivity.
  - reflexivity.
  - reflexivity.
  - apply Hunlisted. intros H. simpl in H.
    repeat (apply elem_of_cons in H as [H | H]; [discriminate H |]).
    by apply elem_of_nil in H.
Defined.

Lemma create_detection_summary_text_witness :
  create_detection_summary [penguin_record; unlisted_record] "YOLOv8n" 0.5
  = Ok (summary_head [penguin_record; unlisted_record] "YOLOv8n" 0.5
          +:+ foldr String.append EmptyString
                (map class_line
                   (count_by_class [penguin_record; unlisted_record]))).
Proof.
  apply (create_detection_summary_text [penguin_record; unlisted_record]
           "YOLOv8n" 0.5%float).
  discriminate.
Defined.

(** ** More on [create_visualization] *)

(** Case analysis on every test of a computation, innermost first. *)
Ltac split_tests :=
  repeat match goal with
         | |- context [match ?x with _ => _ end] =>
             lazymatch x with
             | context [match _ with _ => _ end] => fail
             | _ => destruct x; simpl
             end
         end.

Section VisualizationProperties.
Context {V : Vision}.

(** The boxes that the loop does not skip (line 71). *)
Definition has_conf_and_cls (box : Box) : bool :=
  match conf box, cls box with
  | Some _, Some _ => true
  | _, _ => false
  end.

Lemma visit_box_appends ann w h acc box s data :
  has_conf_and_cls box = true ->
  fst (visit_box ann w h acc box s) = Ok data ->
  exists d, data = (acc ++ [d])%list.
Proof.
  unfold has_conf_and_cls, visit_box.
  destruct (conf box) as [c|]; [| discriminate].
  destruct (cls box) as [k|]; [| discriminate].
  intros _. destruct (xyxy box) as [[[fx1 fy1] fx2] fy2].
  unfold update. unfold bind, lift, read, modify, ret.
  split_tests; intros H; simpl in H; try discriminate H;
    injection H as <-; by eexists.
Qed.

Lemma produced_has_conf_and_cls box d :
  produced box d -> has_conf_and_cls box = true.
Proof.
  intros (k & class_id & x1 & y1 & x2 & y2 & Hconf & Hcls & _).
  unfold has_conf_and_cls. by rewrite Hconf, Hcls.
Qed.

Lemma visit_loop_order ann w h bs :
  forall acc s cur data,
    heap s !! ann = Some cur ->
    fst (for_each bs (visit_box ann w h) acc s) = Ok data ->
    exists new,
      data = (acc ++ new)%list /\
      Forall2 produced (List.filter has_conf_and_cls bs) new.
Proof.
  induction bs as [|box bs IH]; intros acc s cur data Hann Hrun; simpl in *.
  - injection Hrun as <-. exists []. by rewrite app_nil_r.
  - destruct (visit_box_spec ann w h acc box s cur Hann)
      as [Hskip | [[e Hraise] | [d [Hdraw Hprod]]]].
    + rewrite (bind_ok _ _ _ _ _ Hskip) in Hrun.
      destruct (has_conf_and_cls box) eqn:Hbox.
      * destruct (visit_box_appends ann w h acc box s acc Hbox) as [d Hd];
          [by rewrite Hskip |].
        apply (f_equal length) in Hd. rewrite length_app in Hd. simpl in Hd. lia.
      * by eapply IH.
    + by rewrite (bind_raise _ _ _ _ _ Hraise) in Hrun.
    + rewrite (bind_ok _ _ _ _ _ Hdraw) in Hrun.
      rewrite (produced_has_conf_and_cls _ _ Hprod).
      edestruct (IH (acc ++ [d])%list) as (new & -> & Hall);
        [| exact Hrun |]; [apply lookup_insert_eq |].
      exists (d :: new). split; [by rewrite <- app_assoc |].
      by constructor.
Qed.

(** X5: the records that [create_visualization] returns are those of the
    boxes of [results[0].boxes] that have a confidence and a class, one
    record per such box, in the order of the boxes; a box that lacks either
    leaves no record, and without [boxes] there is no record at all. *)
Theorem records_follow_boxes image results name t s annotated data :
  fst (create_visualization image results name t s) = Ok (annotated, data) ->
  exists detections,
    index results 0 = Ok detections /\
    Forall2 produced
      (List.filter has_conf_and_cls (default [] (boxes detections))) data /\
    (length data <= length (default [] (boxes detections)))%nat.
Proof.
  unfold create_visualization, np_array, np_copy, Image_fromarray.
  destruct (heap s !! image) as [px|] eqn:Himg.
  2:{ by rewrite (bind_raise _ _ _ _ _ (copy_none _ _ Himg)). }
  rewrite (bind_ok _ _ _ _ _ (copy_some _ _ _ Himg)).
  set (l1 := fresh (dom (heap s))).
  set (s1 := set_heap (<[l1 := px]> (heap s)) s).
  assert (H1 : heap s1 !! l1 = Some px) by apply lookup_insert_eq.
  rewrite (bind_ok _ _ _ _ _ (read_some _ _ _ H1)).
  destruct (shape px) as [img_height img_width].
  rewrite (bind_ok _ _ _ _ _ (copy_some _ _ _ H1)).
  set (l2 := fresh (dom (heap s1))).
  set (s2 := set_heap (<[l2 := px]> (heap s1)) s1).
  assert (H2 : heap s2 !! l2 = Some px) by apply lookup_insert_eq.
  rewrite bind_lift.
  destruct (index results 0) as [detections|e]; [| discriminate].
  intros Hrun. exists detections. split; [done |].
  assert (Hall : Forall2 produced
            (List.filter has_conf_and_cls (default [] (boxes detections))) data).
  { destruct (boxes detections) as [bs|]; simpl.
    - destruct (for_each bs (visit_box l2 img_width img_height) [] s2)
        as [[data'|e] s3] eqn:Hloop.
      + rewrite (bind_ok _ _ _ _ _ Hloop) in Hrun.
        destruct (visit_loop_order l2 img_width img_height bs [] s2 px data' H2)
          as (new & -> & Hall); [by rewrite Hloop |].
        unfold bind at 1 in Hrun.
        destruct (bind (read l2) alloc s3) as [[out|e] s4]; [| discriminate].
        by injection Hrun as _ <-.
      + by rewrite (bind_raise _ _ _ _ _ Hloop) in Hrun.
    - rewrite (bind_ok (ret []) _ s2 [] s2 eq_refl) in Hrun.
      unfold bind at 1 in Hrun.
      destruct (bind (read l2) alloc s2) as [[out|e] s4]; [| discriminate].
      injection Hrun as _ <-. constructor. }
  split; [exact Hall |].
  apply Forall2_length in Hall. rewrite <- Hall.
  apply List.filter_length_le.
Qed.

(** X6: the class name of a class id, range by range.  From 0 to 6 it is
    the label at that index; from 7 on it is ["class_<id>"]; from -7 to -1
    the list is indexed from its end, so the name is that of [id + 7];
    below -7 the lookup raises [IndexError] and no record is made. *)
Theorem class_name_of_by_range (class_id : Z) :
  (0 <= class_id < 7 ->
   exists name, class_name_of class_id = Ok name /\
                UNDERWATER_CLASSES !! Z.to_nat class_id = Some name) /\
  (7 <= class_id -> class_name_of class_id = Ok ("class_" +:+ str_int class_id)) /\
  (-7 <= class_id < 0 -> class_name_of class_id = class_name_of (class_id + 7)) /\
  (class_id < -7 -> class_name_of class_id = Raise IndexError).
Proof.
  split; [| split; [| split]].
  - intros H.
    assert (class_id = 0 \/ class_id = 1 \/ class_id = 2 \/ class_id = 3
            \/ class_id = 4 \/ class_id = 5 \/ class_id = 6) as Hcases by lia.
    repeat (destruct Hcases as [-> | Hcases]; [by eexists |]).
    subst. by eexists.
  - intros H. unfold class_name_of.
    change (Z.of_nat (length UNDERWATER_CLASSES)) with 7.
    by rewrite (proj2 (Z.ltb_ge class_id 7)).
  - intros H.
    assert (class_id = -7 \/ class_id = -6 \/ class_id = -5 \/ class_id = -4
            \/ class_id = -3 \/ class_id = -2 \/ class_id = -1) as Hcases by lia.
    repeat (destruct Hcases as [-> | Hcases]; [reflexivity |]).
    subst. reflexivity.
  - intros H. unfold class_name_of, index.
    change (Z.of_nat (length UNDERWATER_CLASSES)) with 7.
    rewrite (proj2 (Z.ltb_lt class_id 7)) by lia.
    rewrite (proj2 (Z.ltb_lt class_id 0)) by lia.
    rewrite (proj2 (Z.leb_gt 0 (class_id + 7))) by lia.
    reflexivity.
Qed.

End VisualizationProperties.

Lemma records_follow_boxes_witness :
  (length [penguin_record; unlisted_record] <= 2)%nat.
Proof.
  destruct (records_follow_boxes (V := Canvas.vision) 1%positive example_results
              "YOLOv8n" 0.5%float (Canvas.demo_state []) 4%positive
              [penguin_record; unlisted_record])
    as (detections & Hindex & _ & Hlen).
  - vm_compute. reflexivity.
  - injection Hindex as <-. exact Hlen.
Defined.

Lemma class_name_of_by_range_witness :
  class_name_of (-1) = class_name_of 6 /\ class_name_of (-8) = Raise IndexError.
Proof.
  split.
  - apply (class_name_of_by_range (-1)). lia.
  - apply (class_name_of_by_range (-8)). lia.
Defined.

(** ** More on the callback *)

Section CallbackInvariants.
Context {V : Vision}.

Lemma keeps_get {B} (proj : state -> B) : keeps proj get.
Proof. intros s. reflexivity. Qed.

Lemma keeps_record_history {B} (proj : state -> B) entry :
  (forall h s, proj (set_history h s) = proj s) ->
  keeps proj (record_history entry).
Proof. intros Hb s. rewrite record_history_eq. apply Hb. Qed.

Lemma keeps_run_model {B} (proj : state -> B) choice m image c i :
  (forall l s, proj (set_log l s) = proj s) ->
  keeps proj (run_model choice m image c i).
Proof.
  intros Hb. unfold run_model.
  apply keeps_bind; [apply keeps_read | intros px].
  apply keeps_bind; [apply keeps_modify; intros s; apply Hb |].
  intros _. apply keeps_lift.
Qed.

(** A call changes only the object store, the history and the trace. *)
Lemma keeps_detect_objects {B} (proj : state -> B) clk image choice c i :
  heap_blind proj ->
  (forall h s, proj (set_history h s) = proj s) ->
  (forall l s, proj (set_log l s) = proj s) ->
  keeps proj (detect_objects clk image choice c i).
Proof.
  intros Hheap Hhist Hlog. unfold detect_objects.
  destruct image as [image|]; [| apply keeps_ret].
  apply keeps_bind; [apply keeps_get | intros s0].
  destruct (models s0 !! choice) as [m|]; [| apply keeps_ret].
  apply keeps_bind; [by apply keeps_run_model | intros results].
  apply keeps_bind; [by apply keeps_create_visualization | intros [annotated data]].
  apply keeps_bind; [apply keeps_lift | intros summary].
  apply keeps_bind; [by apply keeps_record_history | intros _; apply keeps_ret].
Qed.

(** What a call that went through did, step by step. *)
Lemma detect_objects_completed clk image choice c i s :
  completed (fst (detect_objects clk image choice c i s)) = true ->
  exists img m results s1 annotated data s2,
    image = Some img /\
    models s !! choice = Some m /\
    run_model choice m img c i s = (Ok results, s1) /\
    create_visualization img results choice
      (PrimFloat.sub (time_after clk) (time_before clk)) s1
    = (Ok (annotated, data), s2) /\
    snd (detect_objects clk image choice c i s)
    = set_history (capped (detection_history s ++ [entry_of clk choice data])) s2.
Proof.
  destruct image as [image|]; [| discriminate].
  destruct (detect_objects clk (Some image) choice c i s) as [o s'] eqn:Hdo.
  simpl. intros Hdone.
  destruct (models s !! choice) as [m|] eqn:Hm.
  2:{ unfold detect_objects, bind, get in Hdo. rewrite Hm in Hdo.
      injection Hdo as <- <-. discriminate. }
  destruct (run_model choice m image c i s) as [[results|e] s1] eqn:Hrun.
  2:{ unfold detect_objects in Hdo. unfold bind at 1 in Hdo.
      unfold get at 1 in Hdo. rewrite Hm in Hdo.
      rewrite (bind_raise _ _ _ _ _ Hrun) in Hdo. injection Hdo as <- <-.
      discriminate. }
  destruct (create_visualization image results choice
              (PrimFloat.sub (time_after clk) (time_before clk)) s1)
    as [[[annotated data]|e] s2] eqn:Hvis.
  - destruct (detect_objects_success clk image choice c i s m results s1
                annotated data s2 Hm Hrun Hvis) as (summary & _ & Heq).
    rewrite Heq in Hdo. injection Hdo as <- <-.
    by exists image, m, results, s1, annotated, data, s2.
  - unfold detect_objects in Hdo. unfold bind at 1 in Hdo.
    unfold get at 1 in Hdo. rewrite Hm in Hdo.
    rewrite (bind_ok _ _ _ _ _ Hrun), (bind_raise _ _ _ _ _ Hvis) in Hdo.
    injection Hdo as <- <-. discriminate.
Qed.

(** *** The shape of the returned tuple *)

(** The number of items of the returned tuple. *)
Definition tuple_length (r : detect_return) : nat :=
  match r with
  | Return4 _ _ _ _ => 4
  | Return3 _ _ _ => 3
  end.

(** [outputs=[output_image, output_summary, status_text]] of the click
    handler (lines 813-817). *)
Definition CLICK_OUTPUTS : list string :=
  ["output_image"; "output_summary"; "status_text"].

(** X7: a call that returns yields as many items as the click handler has
    outputs exactly when it was given an image and a registered model; the
    two early exits return four items for the three outputs. *)
Theorem returned_tuple_matches_outputs clk image choice c i s r :
  fst (detect_objects clk image choice c i s) = Ok r ->
  (tuple_length r = length CLICK_OUTPUTS
   <-> (exists img, image = Some img) /\ is_Some (models s !! choice)).
Proof.
  intros Hr.
  destruct (completed (fst (detect_objects clk image choice c i s))) eqn:Hdone.
  - destruct (detect_objects_completed _ _ _ _ _ _ Hdone)
      as (img & m & _ & _ & _ & _ & _ & -> & Hm & _).
    rewrite Hr in Hdone. destruct r; [discriminate |]. simpl.
    split; [| done]. intros _. split; [by eexists | by rewrite Hm].
  - rewrite Hr in Hdone. destruct r; [| discriminate]. simpl.
    split; [discriminate |]. intros [[img ->] [m Hm]]. exfalso.
    destruct (run_model choice m img c i s) as [[results|e] s1] eqn:Hrun.
    2:{ unfold detect_objects in Hr. unfold bind at 1 in Hr.
        unfold get at 1 in Hr. rewrite Hm in Hr.
        by rewrite (bind_raise _ _ _ _ _ Hrun) in Hr. }
    destruct (create_visualization img results choice
                (PrimFloat.sub (time_after clk) (time_before clk)) s1)
      as [[[annotated data]|e] s2] eqn:Hvis.
    + destruct (detect_objects_success clk img choice c i s m results s1
                  annotated data s2 Hm Hrun Hvis) as (summary & _ & Heq).
      rewrite Heq in Hr. discriminate.
    + unfold detect_objects in Hr. unfold bind at 1 in Hr.
      unfold get at 1 in Hr. rewrite Hm in Hr.
      by rewrite (bind_ok _ _ _ _ _ Hrun), (bind_raise _ _ _ _ _ Hvis) in Hr.
Qed.

(** *** What no call changes *)

Lemma detect_objects_frame clk image choice c i s l px :
  heap s !! l = Some px ->
  heap (snd (detect_objects clk image choice c i s)) !! l = Some px.
Proof.
  intros Hl.
  destruct image as [image|]; [| exact Hl].
  destruct (detect_objects clk (Some image) choice c i s) as [o s'] eqn:Hdo.
  simpl.
  destruct (models s !! choice) as [m|] eqn:Hm.
  2:{ unfold detect_objects, bind, get in Hdo. rewrite Hm in Hdo.
      by injection Hdo as <- <-. }
  destruct (run_model choice m image c i s) as [[results|e] s1] eqn:Hrun.
  all: assert (H1 : heap s1 = heap s)
    by (eapply (keeps_eq heap); [| exact Hrun]; by apply keeps_run_model).
  2:{ unfold detect_objects in Hdo. unfold bind at 1 in Hdo.
      unfold get at 1 in Hdo. rewrite Hm in Hdo.
      rewrite (bind_raise _ _ _ _ _ Hrun) in Hdo. injection Hdo as <- <-.
      by rewrite H1. }
  pose proof (create_visualization_spec image results choice
                (PrimFloat.sub (time_after clk) (time_before clk)) s1)
    as [Hframe _].
  destruct (create_visualization image results choice
              (PrimFloat.sub (time_after clk) (time_before clk)) s1)
    as [[[annotated data]|e] s2] eqn:Hvis; simpl in Hframe.
  - destruct (detect_objects_success clk image choice c i s m results s1
                annotated data s2 Hm Hrun Hvis) as (summary & _ & Heq).
    rewrite Heq in Hdo. injection Hdo as <- <-. simpl.
    apply Hframe. by rewrite H1.
  - unfold detect_objects in Hdo. unfold bind at 1 in Hdo.
    unfold get at 1 in Hdo. rewrite Hm in Hdo.
    rewrite (bind_ok _ _ _ _ _ Hrun), (bind_raise _ _ _ _ _ Hvis) in Hdo.
    injection Hdo as <- <-. apply Hframe. by rewrite H1.
Qed.

Lemma serve_all_cons r rs s :
  snd (serve_all (r :: rs) s) = snd (serve_all rs (snd (serve r s))).
Proof.
  simpl. destruct (serve r s) as [o s1]. simpl.
  by destruct (serve_all rs s1) as [os s2].
Qed.

(** X8: no sequence of calls changes the registry of models, and none
    changes or removes an object that is in the store: an uploaded image and
    every annotated image returned earlier keep their pixels, whether the
    calls return or raise. *)
Theorem calls_keep_registry_and_objects (rs : list request) (s : state) :
  models (snd (serve_all rs s)) = models s /\
  forall l px, heap s !! l = Some px ->
               heap (snd (serve_all rs s)) !! l = Some px.
Proof.
  revert s. induction rs as [|r rs IH]; intros s; [done |].
  rewrite serve_all_cons. destruct (IH (snd (serve r s))) as [Hmodels Hheap].
  split.
  - rewrite Hmodels. unfold serve. by apply keeps_detect_objects.
  - intros l px Hl. apply Hheap. unfold serve. by apply detect_objects_frame.
Qed.

(** *** The trace of inference calls *)

(** X9: a call with an image of the store and a registered model runs the
    model exactly once, on that image and with the thresholds of the call,
    whether or not the call then returns; nothing else is added to the
    trace. *)
Theorem one_inference_per_call clk img choice c i s m px :
  models s !! choice = Some m ->
  heap s !! img = Some px ->
  inference_log (snd (detect_objects clk (Some img) choice c i s))
  = (inference_log s
       ++ [ {| call_model := choice; call_image := img;
               call_conf := c; call_iou := i |} ])%list.
Proof.
  intros Hm Himg.
  set (call := {| call_model := choice; call_image := img;
                  call_conf := c; call_iou := i |}).
  assert (Hrun : run_model choice m img c i s
                 = (predict m px c i, set_log (inference_log s ++ [call]) s)).
  { unfold run_model. rewrite (bind_ok _ _ _ _ _ (read_some _ _ _ Himg)).
    reflexivity. }
  destruct (detect_objects clk (Some img) choice c i s) as [o s'] eqn:Hdo.
  simpl.
  destruct (predict m px c i) as [results|e] eqn:Hpredict.
  2:{ unfold detect_objects in Hdo. unfold bind at 1 in Hdo.
      unfold get at 1 in Hdo. rewrite Hm in Hdo.
      rewrite (bind_raise _ _ _ _ _ Hrun) in Hdo. by injection Hdo as <- <-. }
  destruct (create_visualization img results choice
              (PrimFloat.sub (time_after clk) (time_before clk))
              (set_log (inference_log s ++ [call]) s))
    as [[[annotated data]|e] s2] eqn:Hvis.
  all: assert (H2 : inference_log s2
                    = inference_log (set_log (inference_log s ++ [call]) s))
    by (eapply (keeps_eq inference_log); [| exact Hvis];
        by apply keeps_create_visualization).
  all: simpl in H2.
  - destruct (detect_objects_success clk img choice c i s m results _
                annotated data s2 Hm Hrun Hvis) as (summary & _ & Heq).
    rewrite Heq in Hdo. by injection Hdo as <- <-.
  - unfold detect_objects in Hdo. unfold bind at 1 in Hdo.
    unfold get at 1 in Hdo. rewrite Hm in Hdo.
    rewrite (bind_ok _ _ _ _ _ Hrun), (bind_raise _ _ _ _ _ Hvis) in Hdo.
    by injection Hdo as <- <-.
Qed.

End CallbackInvariants.

Lemma calls_keep_registry_and_objects_witness :
  heap (snd (serve_all (clicks 3) (Canvas.demo_state example_boxes))) !! 1%positive
  = Some (Canvas.blank 600 900).
Proof.
  apply (calls_keep_registry_and_objects (V := Canvas.vision) (clicks 3)
           (Canvas.demo_state example_boxes)).
  reflexivity.
Defined.

Lemma one_inference_per_call_witness :
  length (inference_log (snd (example_call (Canvas.demo_state example_boxes))))
  = 1%nat.
Proof.
  pose proof (one_inference_per_call (V := Canvas.vision) Canvas.demo_clock
                1%positive "YOLOv8n" 0.25%float 0.45%float
                (Canvas.demo_state example_boxes)
                (Canvas.answer example_boxes) (Canvas.blank 600 900)) as H.
  specialize (H eq_refl eq_refl).
  exact (f_equal length H).
Defined.

(** ** More on the history *)

Section HistoryInvariants.
Context {V : Vision}.

(** An entry whose count is the number of its records, whose model is a
    registered one, and whose records have a box of four integers and the
    colour of their class. *)
Definition entry_consistent (registry : gmap string handle)
    (e : history_entry) : Prop :=
  detections e = Z.of_nat (length (objects e)) /\
  is_Some (registry !! model e) /\
  Forall (fun d => length (bbox d) = 4%nat /\
                   color d = dict_get CLASS_COLORS (class d) "#FFFFFF")
    (objects e).

Lemma capped_snoc (h : list history_entry) e :
  exists older, capped (h ++ [e]) = (older ++ [e])%list /\
                (forall x, x ∈ older -> x ∈ h).
Proof.
  unfold capped. destruct (50 <? _) eqn:Hlen; [| by exists h].
  destruct h as [|first rest]; [simpl in Hlen; discriminate |].
  exists rest. split; [reflexivity |]. intros x Hx. by right.
Qed.

Lemma serve_history_consistent r s :
  Forall (entry_consistent (models s)) (detection_history s) ->
  Forall (entry_consistent (models s)) (detection_history (snd (serve r s))).
Proof.
  intros Hinv. unfold serve.
  pose proof (detect_objects_history (req_clock r) (req_image r) (req_model r)
                (req_conf r) (req_iou r) s) as Hstep.
  destruct (completed (fst (detect_objects (req_clock r) (req_image r)
                              (req_model r) (req_conf r) (req_iou r) s)))
    eqn:Hdone; [| by rewrite Hstep].
  clear Hstep.
  destruct (detect_objects_completed _ _ _ _ _ _ Hdone)
    as (img & m & results & s1 & annotated & data & s2 & _ & Hm & _ & Hvis & ->).
  simpl.
  destruct (capped_snoc (detection_history s)
              (entry_of (req_clock r) (req_model r) data))
    as (older & -> & Holder).
  apply Forall_app. split.
  - rewrite Forall_forall in Hinv |- *. intros x Hx. apply Hinv. by apply Holder.
  - constructor; [| constructor].
    split; [reflexivity |]. unfold entry_of at 1 2. cbn [model objects].
    split; [by rewrite Hm |].
    destruct (create_visualization_spec img results (req_model r)
                (PrimFloat.sub (time_after (req_clock r))
                   (time_before (req_clock r))) s1) as [_ Hspec].
    destruct (Hspec annotated data) as (px & detections & _ & _ & _ & _ & Hall);
      [by rewrite Hvis |].
    eapply Forall_impl; [exact Hall |].
    intros d (bs & box & _ & _ & Hprod).
    destruct Hprod as (k & class_id & x1 & y1 & x2 & y2 & _ & _ & _ & _ & _
                       & _ & _ & _ & Hbbox & Hcolor).
    split; [by rewrite Hbbox | exact Hcolor].
Qed.

(** X10: if every entry of the history has a count equal to the number of
    its records, names a registered model and holds records with a box of
    four integers and the colour of their class, then so does every entry
    after any sequence of calls.  The empty history of a fresh process has
    the property. *)
Theorem history_entries_stay_consistent (rs : list request) (s : state) :
  Forall (entry_consistent (models s)) (detection_history s) ->
  Forall (entry_consistent (models s)) (detection_history (snd (serve_all rs s))).
Proof.
  revert s. induction rs as [|r rs IH]; intros s Hinv; [exact Hinv |].
  rewrite serve_all_cons.
  assert (Hmodels : models (snd (serve r s)) = models s).
  { unfold serve. by apply keeps_detect_objects. }
  rewrite <- Hmodels. apply IH. rewrite Hmodels.
  by apply serve_history_consistent.
Qed.

(** *** The report after a run *)




End HistoryInvariants.

Lemma history_entries_stay_consistent_witness :
  Forall (entry_consistent (models (Canvas.demo_state example_boxes)))
    (detection_history
       (snd (serve_all (clicks 3) (Canvas.demo_state example_boxes)))).
Proof.
  apply (history_entries_stay_consistent (V := Canvas.vision)).
  simpl. constructor.
Defined.


(** ** More on the model registry *)

Section RegistryProperties.
Context {V : Vision} {W : Weights}.

(** [value=available_models[0] if available_models else None] of the model
    selector (line 774). *)
Definition dropdown_value (available : list string) : option string :=
  head available.

Lemma two_slots_lookup (n s : option handle) name :
  is_Some ((match s with
            | Some m => <["YOLOv8s" := m]>
            | None => fun r : gmap string handle => r
            end)
             (match n with
              | Some m => <["YOLOv8n" := m]> (∅ : gmap string handle)
              | None => ∅
              end) !! name)
  <-> name ∈ ((match n with Some _ => ["YOLOv8n"] | None => [] end)
              ++ (match s with Some _ => ["YOLOv8s"] | None => [] end))%list.
Proof.
  pose proof (@is_Some_None handle) as Hnone.
  destruct n, s; simpl;
    rewrite ?lookup_insert_is_Some', ?lookup_empty, ?elem_of_cons, ?elem_of_nil;
    intuition congruence.
Qed.

Lemma startup_registry r :
  startup = Ok r ->
  (forall name, name ∈ available_models r <-> is_Some (reg_models r !! name)) /\
  NoDup (available_models r) /\
  available_models r <> [] /\
  (forall name, name ∈ available_models r ->
                name = "YOLOv8n" \/ name = "YOLOv8s").
Proof.
  unfold startup.
  destruct (available_models load_custom) as [|a rest] eqn:Hav.
  - unfold load_default. rewrite (available_nil_models_empty Hav).
    destruct (YOLO "yolov8n.pt") as [n|e]; [| discriminate].
    destruct (YOLO "yolov8s.pt") as [s|e]; [| discriminate].
    intros [= <-]. cbn [reg_models available_models print].
    split; [| split; [| split]].
    + intros name. rewrite (two_slots_lookup (Some n) (Some s) name). done.
    + apply NoDup_cons. split; [| apply NoDup_singleton].
      intros H. by apply list_elem_of_singleton in H.
    + done.
    + intros name H. rewrite !elem_of_cons, elem_of_nil in H. tauto.
  - intros [= <-]. rewrite load_custom_models.
    rewrite load_custom_available in Hav |- *.
    split; [| split; [| split]].
    + intros name. by rewrite two_slots_lookup.
    + destruct (loaded PATH_N), (loaded PATH_S); simpl;
        repeat constructor; try (by intros H; apply elem_of_nil in H).
      intros H. by apply list_elem_of_singleton in H.
    + destruct (loaded PATH_N), (loaded PATH_S); done.
    + intros name H.
      destruct (loaded PATH_N), (loaded PATH_S); simpl in H;
        rewrite ?elem_of_cons, ?elem_of_nil in H; tauto.
Qed.

(** X12: after a startup that returns, the names offered for selection are
    exactly the keys of [models], each once, and they are among "YOLOv8n"
    and "YOLOv8s". *)
Theorem available_models_are_the_registry r :
  startup = Ok r ->
  (forall name, name ∈ available_models r <-> is_Some (reg_models r !! name)) /\
  NoDup (available_models r) /\
  (forall name, name ∈ available_models r ->
                name = "YOLOv8n" \/ name = "YOLOv8s").
Proof.
  intros Hr. destruct (startup_registry r Hr) as (Hiff & Hnodup & _ & Hnames).
  split; [exact Hiff | split; [exact Hnodup | exact Hnames]].
Qed.

(** X13: after a startup that returns, the model selector has a default
    value, the first available name, and that value is a key of [models]:
    the default choice passes the model guard of [detect_objects]. *)
Theorem dropdown_default_is_registered r :
  startup = Ok r ->
  exists name m,
    dropdown_value (available_models r) = Some name /\
    available_models r !! 0%nat = Some name /\
    models (initial_state r) !! name = Some m.
Proof.
  intros Hr. destruct (startup_registry r Hr) as (Hiff & _ & Hne & _).
  unfold dropdown_value.
  destruct (available_models r) as [|name rest] eqn:Hav; [done |].
  destruct (proj1 (Hiff name) ltac:(by left)) as [m Hm].
  by exists name, m.
Qed.

End RegistryProperties.

Lemma available_models_are_the_registry_witness :
  NoDup (available_models (load_custom (W := broken_nano_weights))).
Proof.
  apply (available_models_are_the_registry (W := broken_nano_weights)).
  vm_compute. reflexivity.
Defined.

Lemma dropdown_default_is_registered_witness :
  exists name m,
    dropdown_value (available_models (load_custom (W := broken_nano_weights)))
    = Some name /\
    models (initial_state (load_custom (W := broken_nano_weights))) !! name
    = Some m.
Proof.
  destruct (dropdown_default_is_registered (W := broken_nano_weights)
              (load_custom (W := broken_nano_weights)))
    as (name & m & Hdefault & _ & Hm).
  - vm_compute. reflexivity.
  - by exists name, m.
Defined.

Lemma returned_tuple_matches_outputs_witness :
  tuple_length (Return4 None "Please upload an image" None EmptyString)
  <> length CLICK_OUTPUTS.
Proof.
  intros Hlen.
  destruct (proj1 (returned_tuple_matches_outputs (V := Canvas.vision)
                     Canvas.demo_clock None "YOLOv8n" 0.25%float 0.45%float
                     (Canvas.demo_state example_boxes) _ eq_refl) Hlen)
    as [[img Himg] _].
  discriminate Himg.
Defined.

(** ** More on the training scripts *)

Section ScriptProperties.
Context {T : Train.Trainer}.

(** Every call into the training library returns, the file can be opened. *)
Definition library_returns : Prop :=
  (forall weights, exists m, Train.YOLO weights = Ok m) /\
  (forall m kw, exists m', Train.model_train m kw = Ok m') /\
  (forall m kw, exists v, Train.model_val m kw = Ok v) /\
  (forall m kw, Train.model_predict m kw = Ok tt) /\
  (forall path, Train.open_for_writing path = Ok tt).

(** Rewriting with what the library returns, call by call. *)
Ltac run_library HY Htrain Hval Hpredict Hopen :=
  repeat first
    [ rewrite Hpredict
    | rewrite Hopen
    | match goal with
      | |- context [Train.YOLO ?p] =>
          let m := fresh "m" in
          let Hm := fresh "Hm" in
          destruct (HY p) as [m Hm]; rewrite Hm; clear Hm
      | |- context [Train.model_train ?m0 ?kw] =>
          let m := fresh "m" in
          let Hm := fresh "Hm" in
          destruct (Htrain m0 kw) as [m Hm]; rewrite Hm; clear Hm
      | |- context [Train.model_val ?m0 ?kw] =>
          let v := fresh "v" in
          let Hv := fresh "Hv" in
          destruct (Hval m0 kw) as [v Hv]; rewrite Hv; clear Hv
      | |- context [Train.box_map50 ?v] => destruct (Train.box_map50 v)
      end
    | progress simpl ].

Lemma validate_predict_test_returns model DATA_YAML IMG_SIZE DEVICE w :
  library_returns ->
  fst (Train.validate_predict_test model DATA_YAML IMG_SIZE DEVICE w) = Ok tt /\
  length (Train.stdout
            (snd (Train.validate_predict_test model DATA_YAML IMG_SIZE DEVICE w)))
  = (length (Train.stdout w) + 4)%nat.
Proof.
  intros (HY & Htrain & Hval & Hpredict & Hopen).
  unfold Train.validate_predict_test, Train.report_map50, Train.write_file.
  unfold Train.bind, Train.lift, Train.print.
  run_library HY Htrain Hval Hpredict Hopen;
    rewrite ?length_app; simpl; split; (reflexivity || lia).
Qed.

(** X14: when every call into the training library returns, both scripts
    run to the end, whether the reads of [box.map50] return or raise: the
    first prints six lines and the second four. *)
Theorem scripts_run_to_the_end (w : Train.world) :
  library_returns ->
  fst (Train.main_train_and_test_yolov8 w) = Ok tt /\
  fst (Train.main_train_test_yolov8s w) = Ok tt /\
  length (Train.stdout (snd (Train.main_train_and_test_yolov8 w)))
  = (length (Train.stdout w) + 6)%nat /\
  length (Train.stdout (snd (Train.main_train_test_yolov8s w)))
  = (length (Train.stdout w) + 4)%nat.
Proof.
  intros Hlib. pose proof Hlib as (HY & Htrain & _).
  destruct (HY "yolov8s.pt") as [m0 Hm0].
  unfold Train.main_train_and_test_yolov8, Train.main_train_test_yolov8s.
  cbv zeta. unfold Train.bind, Train.lift, Train.print.
  rewrite Hm0.
  match goal with
  | |- context [Train.model_train m0 ?kw] =>
      match kw with
      | context [("batch", _)] => destruct (Htrain m0 kw) as [m2 Hm2]
      end
  end.
  rewrite Hm2.
  destruct (Htrain m0 (Train.train_arguments_augmented "data.yaml" 100 640 0))
    as [m1 Hm1].
  rewrite Hm1.
  pose proof (fun w0 => validate_predict_test_returns m1 "data.yaml" 640 0 w0 Hlib)
    as Haug.
  pose proof (validate_predict_test_returns m2 "data.yaml" 640 0 w Hlib)
    as [Hok2 Hlen2].
  split; [| split; [exact Hok2 | split; [| exact Hlen2]]].
  - destruct Train.cuda_is_available; apply Haug.
  - destruct Train.cuda_is_available;
      (etrans; [apply Haug |]); simpl; rewrite !length_app; simpl; lia.
Qed.

(** X15: neither script writes, changes or removes any file other than
    [test_data.yaml] next to the script, however far the run gets. *)
Theorem scripts_touch_only_the_label_map (w : Train.world) (path : string) :
  path <> Train.test_yaml_path ->
  Train.files (snd (Train.main_train_and_test_yolov8 w)) !! path
  = Train.files w !! path /\
  Train.files (snd (Train.main_train_test_yolov8s w)) !! path
  = Train.files w !! path.
Proof.
  intros Hpath.
  unfold Train.main_train_and_test_yolov8, Train.main_train_test_yolov8s,
    Train.validate_predict_test, Train.report_map50, Train.write_file.
  unfold Train.bind, Train.lift, Train.print.
  split; split_tests; try reflexivity; by apply lookup_insert_ne.
Qed.

(** X16: the label map is written before the validation on the test set.
    When the constructor, the training, the validation named [detect_val],
    the prediction and the opening of the file return, the file holds the
    dump after the run of either script, whether the validation on the test
    set returns or raises. *)
Theorem label_map_precedes_test_validation (w : Train.world) :
  (forall weights, exists m, Train.YOLO weights = Ok m) ->
  (forall m kw, exists m', Train.model_train m kw = Ok m') ->
  (forall m kw, ("name", Train.PStr "detect_val") ∈ kw ->
                exists v, Train.model_val m kw = Ok v) ->
  (forall m kw, Train.model_predict m kw = Ok tt) ->
  Train.open_for_writing Train.test_yaml_path = Ok tt ->
  Train.files (snd (Train.main_train_and_test_yolov8 w)) !! Train.test_yaml_path
  = Some (Train.yaml_dump Train.test_yaml) /\
  Train.files (snd (Train.main_train_test_yolov8s w)) !! Train.test_yaml_path
  = Some (Train.yaml_dump Train.test_yaml).
Proof.
  intros HY Htrain Hval Hpredict Hopen.
  assert (Hsteps : forall model w0,
    Train.files (snd (Train.validate_predict_test model "data.yaml" 640 0 w0))
      !! Train.test_yaml_path
    = Some (Train.yaml_dump Train.test_yaml)).
  { intros model w0.
    unfold Train.validate_predict_test, Train.report_map50, Train.write_file.
    unfold Train.bind, Train.lift, Train.print.
    match goal with
    | |- context [Train.model_val model ?kw] =>
        destruct (Hval model kw) as [v Hv];
        [ rewrite !elem_of_cons; tauto | rewrite Hv ]
    end.
    rewrite Hpredict, Hopen.
    split_tests; apply lookup_insert_eq. }
  unfold Train.main_train_and_test_yolov8, Train.main_train_test_yolov8s.
  cbv zeta. unfold Train.bind, Train.lift, Train.print.
  destruct (HY "yolov8s.pt") as [m0 Hm0].
  split; [destruct Train.cuda_is_available |]; rewrite Hm0;
    (match goal with
     | |- context [Train.model_train m0 ?kw] =>
         destruct (Htrain m0 kw) as [m1 ->]
     end); apply Hsteps.
Qed.

End ScriptProperties.

Lemma scripts_run_to_the_end_witness :
  fst (Train.main_train_and_test_yolov8 (T := PlainRun.trainer)
         PlainRun.empty_world) = Ok tt.
Proof.
  apply (scripts_run_to_the_end (T := PlainRun.trainer) PlainRun.empty_world).
  repeat split; intros; try reflexivity; by eexists.
Defined.

Lemma scripts_touch_only_the_label_map_witness :
  Train.files (snd (Train.main_train_test_yolov8s (T := PlainRun.trainer)
                      PlainRun.empty_world)) !! "/home/user/yolov8s/data.yaml"
  = None.
Proof.
  apply (scripts_touch_only_the_label_map (T := PlainRun.trainer)
           PlainRun.empty_world "/home/user/yolov8s/data.yaml").
  discriminate.
Defined.

(** A library whose validation on the test set raises: the run stops there,
    with the label map already written. *)
Definition names_detect_val (item : string * Train.pyval) : bool :=
  String.eqb (fst item) "name"
  && match snd item with
     | Train.PStr s => String.eqb s "detect_val"
     | _ => false
     end.

Definition failing_test_validation : Train.Trainer :=
  {| Train.yolo := unit;
     Train.metrics := float;
     Train.cuda_is_available := false;
     Train.cuda_get_device_name := fun _ => "none";
     Train.YOLO := fun _ => Ok tt;
     Train.model_train := fun m _ => Ok m;
     Train.model_val := fun _ kw =>
       if existsb names_detect_val kw
       then Ok 0.75%float
       else Raise (Exception "no labels found");
     Train.model_predict := fun _ _ => Ok tt;
     Train.box_map50 := fun v => inl v;
     Train.script_dir := "/home/user/yolov8s";
     Train.path_join := fun a b => a +:+ "/" +:+ b;
     Train.abspath := fun p => p;
     Train.today := "20250101";
     Train.yaml_dump := PlainRun.dump;
     Train.open_for_writing := fun _ => Ok tt |}.

Lemma label_map_precedes_test_validation_witness :
  fst (Train.main_train_test_yolov8s (T := failing_test_validation)
         PlainRun.empty_world)
  = Raise (Exception "no labels found")
  /\ Train.files (snd (Train.main_train_test_yolov8s
                         (T := failing_test_validation) PlainRun.empty_world))
       !! "/home/user/yolov8s/test_data.yaml"
     = Some (PlainRun.dump (Train.test_yaml (T := failing_test_validation))).
Proof.
  split; [vm_compute; reflexivity |].
  apply (label_map_precedes_test_validation (T := failing_test_validation)
           PlainRun.empty_world).
  - intros. by eexists.
  - intros. by eexists.
  - intros m kw Hin. exists 0.75%float. simpl.
    assert (Hex : existsb names_detect_val kw = true).
    { apply existsb_exists. exists ("name", Train.PStr "detect_val").
      split; [by apply list_elem_of_In | reflexivity]. }
    by rewrite Hex.
  - reflexivity.
  - reflexivity.
Defined.

Lemma create_detection_chart_bars_witness :
  bar_y {| bar_x := ["penguin"; "class_7"]; bar_y := [2; 1];
           bar_marker_color := ["#45B7D1"; "#888888"] |} !! 1%nat
  = Some (Z.of_nat (count_class "class_7"
                      [penguin_record; unlisted_record; penguin_record])).
Proof.
  destruct (create_detection_chart_bars
              [penguin_record; unlisted_record; penguin_record]) as [_ Hbars].
  destruct (Hbars {| bar_x := ["penguin"; "class_7"]; bar_y := [2; 1];
                     bar_marker_color := ["#45B7D1"; "#888888"] |})
    as (_ & _ & _ & _ & _ & Hbar).
  - vm_compute. reflexivity.
  - destruct (Hbar 1%nat "class_7") as [Hy _]; [reflexivity | exact Hy].
Defined.
